(** * cycleops: the WKT MULTIPOLYGON parser of [backend.py]

    A shallow embedding of [parse_wkt_multipolygon] and
    [create_nta_geojson_full] (src/backend.py, lines 329-455) together with
    the Python built-ins they call: [str.strip], [str.split],
    [str.startswith], [float], and the [re] functions [match], [findall],
    [split] and [search] on the four patterns of the source.

    Conventions.
    - A Python [str] is a Rocq [string]; each [ascii] is one code point in
      the range 0..255.  Whitespace and [float] follow CPython on that range.
    - A Python [float] is an IEEE-754 binary64 value, [spec_float] of the
      Standard Library with [prec = 53] and [emax = 1024].
    - Code that may raise returns a [result]: [Ok v] or [Raise e]. *)

From Stdlib Require Import ZArith Lia Ascii String List Bool.
From Stdlib Require Import Floats.SpecFloat.
From Stdlib Require Import DecimalString.
From stdpp Require Import base list strings sorting gmap.

Local Open Scope string_scope.
Local Open Scope list_scope.

(** ** Exceptions and results *)

Inductive exn : Set := ValueError | IndexError.

Inductive result (A : Type) : Type :=
| Ok (a : A)
| Raise (e : exn).
Arguments Ok {A} a.
Arguments Raise {A} e.

#[global] Instance result_ret : MRet result := fun A a => Ok a.
#[global] Instance result_bind : MBind result := fun A B f m =>
  match m with
  | Ok a => f a
  | Raise e => Raise e
  end.
#[global] Instance result_fmap : FMap result := fun A B f m =>
  match m with
  | Ok a => Ok (f a)
  | Raise e => Raise e
  end.

(** [try: m except ValueError: h] *)
Definition except_ValueError {A} (m : result A) (h : result A) : result A :=
  match m with
  | Raise ValueError => h
  | other => other
  end.

(** [for x in xs: st = body st x], stopping at the first exception. *)
Fixpoint for_each {S A} (body : S -> A -> result S) (xs : list A) (st : S)
  : result S :=
  match xs with
  | [] => Ok st
  | x :: xs' => st' ← body st x; for_each body xs' st'
  end.

(** [xs[i]] *)
Definition getitem {A} (xs : list A) (i : nat) : result A :=
  match xs !! i with
  | Some x => Ok x
  | None => Raise IndexError
  end.

(** ** Python strings *)

Module Str.

Definition code (c : ascii) : N := N_of_ascii c.

(** [str.isspace] on one character ([Py_UNICODE_ISSPACE]) for code points
    below 256: TAB LF VT FF CR, FS GS RS US, SPACE, NEL and NBSP. *)
Definition isspace (c : ascii) : bool :=
  let n := code c in
  ((9 <=? n) && (n <=? 13) || (28 <=? n) && (n <=? 32)
   || (n =? 133) || (n =? 160))%N.

Definition is_empty (s : string) : bool :=
  match s with
  | EmptyString => true
  | String _ _ => false
  end.

Fixpoint lstrip_by (p : ascii -> bool) (s : string) : string :=
  match s with
  | EmptyString => EmptyString
  | String c s' => if p c then lstrip_by p s' else s
  end.

Fixpoint rstrip_by (p : ascii -> bool) (s : string) : string :=
  match s with
  | EmptyString => EmptyString
  | String c s' =>
      let r := rstrip_by p s' in
      if is_empty r && p c then EmptyString else String c r
  end.

Definition strip_by (p : ascii -> bool) (s : string) : string :=
  rstrip_by p (lstrip_by p s).

(** [s.strip()] *)
Definition strip (s : string) : string := strip_by isspace s.

Fixpoint mem_char (c : ascii) (chars : string) : bool :=
  match chars with
  | EmptyString => false
  | String d chars' => Ascii.eqb c d || mem_char c chars'
  end.

(** [s.strip(chars)] *)
Definition strip_chars (chars : string) (s : string) : string :=
  strip_by (fun c => mem_char c chars) s.

(** [s.startswith(p)] *)
Definition startswith (s p : string) : bool := String.prefix p s.

(** [s.split(sep)] for a one-character separator: every occurrence splits,
    empty pieces are kept, and the result is never empty. *)
Fixpoint split_char (sep : ascii) (s : string) : list string :=
  match s with
  | EmptyString => [EmptyString]
  | String c s' =>
      let r := split_char sep s' in
      if Ascii.eqb c sep then EmptyString :: r
      else match r with
           | h :: t => String c h :: t
           | [] => [String c EmptyString]
           end
  end.

(** [s.split()]: maximal runs of non-whitespace characters.  [tok] is the
    run being read. *)
Fixpoint split_ws_from (s : string) (tok : string) : list string :=
  match s with
  | EmptyString => if is_empty tok then [] else [tok]
  | String c s' =>
      if isspace c
      then (if is_empty tok then split_ws_from s' EmptyString
            else tok :: split_ws_from s' EmptyString)
      else split_ws_from s' (tok ++ String c EmptyString)
  end.

Definition split_ws (s : string) : list string := split_ws_from s EmptyString.

(** The first [n] characters of [s]. *)
Fixpoint take (n : nat) (s : string) : string :=
  match n, s with
  | S n', String c s' => String c (take n' s')
  | _, _ => EmptyString
  end.

End Str.

(** ** Python [float(str)] *)

Module PyFloat.

Definition float : Set := spec_float.

Definition prec : Z := 53.
Definition emax : Z := 1024.

Definition inf (neg : bool) : float := S754_infinity neg.
Definition nan : float := S754_nan.

(** The binary64 value nearest to [n / d] (ties to even), for [0 < d]. *)
Definition round_ratio (neg : bool) (n d : Z) : float :=
  match n with
  | Z0 => S754_zero neg
  | _ =>
      let s := Z.max 0 (64 + Zdigits2 d - Zdigits2 n) in
      let q := (n * 2 ^ s / d)%Z in
      let r := (n * 2 ^ s mod d)%Z in
      let loc := if (r =? 0)%Z then loc_Exact
                 else loc_Inexact (Z.compare (2 * r) d) in
      binary_round_aux prec emax neg q (- s) loc
  end.

(** The value of the decimal [m * 10^e], correctly rounded, as the
    string-to-double conversion of CPython ([_Py_dg_strtod]) computes it. *)
Definition of_decimal (neg : bool) (m : N) (e : Z) : float :=
  round_ratio neg (Z.of_N m * 10 ^ Z.max e 0) (10 ^ Z.max (- e) 0).

(** The float of an integer, for stating expected values. *)
Definition of_Z (z : Z) : float := of_decimal (z <? 0)%Z (Z.abs_N z) 0.

Definition is_digit (c : ascii) : bool :=
  let n := Str.code c in ((48 <=? n) && (n <=? 57))%N.

Definition digit_val (c : ascii) : N := (Str.code c - 48)%N.

(** Reads a run of decimal digits: the number read so far, how many digits
    were read, and the rest of the input. *)
Fixpoint read_digits (s : string) (acc : N) (cnt : nat) : N * nat * string :=
  match s with
  | String c s' =>
      if is_digit c then read_digits s' (10 * acc + digit_val c)%N (S cnt)
      else (acc, cnt, s)
  | EmptyString => (acc, cnt, s)
  end.

(** An optional sign. *)
Definition read_sign (s : string) : bool * string :=
  match s with
  | String "-" s' => (true, s')
  | String "+" s' => (false, s')
  | _ => (false, s)
  end.

(** The exponent part: [e] or [E], an optional sign and at least one digit.
    When the digits are missing nothing is consumed. *)
Definition read_exponent (s : string) : Z * string :=
  match s with
  | String c s1 =>
      if Ascii.eqb c "e" || Ascii.eqb c "E" then
        let '(eneg, s2) := read_sign s1 in
        let '(v, cnt, s3) := read_digits s2 0%N 0 in
        match cnt with
        | O => (0%Z, s)
        | S _ => ((if eneg then - Z.of_N v else Z.of_N v)%Z, s3)
        end
      else (0%Z, s)
  | EmptyString => (0%Z, s)
  end.

(** [_Py_dg_strtod]: sign, digits with an optional point, optional exponent.
    [None] when no digit is present (nothing converted); otherwise the value
    and the unread rest. *)
Definition strtod (s : string) : option (float * string) :=
  let '(neg, s1) := read_sign s in
  let '(m1, n1, s2) := read_digits s1 0%N 0 in
  let '(m, nfrac, s3) :=
    match s2 with
    | String "." s2' =>
        let '(m2, n2, s3) := read_digits s2' m1 0 in (m2, n2, s3)
    | _ => (m1, O, s2)
    end in
  match n1 + nfrac with
  | O => None
  | S _ =>
      let '(e, s4) := read_exponent s3 in
      Some (of_decimal neg m (e - Z.of_nat nfrac), s4)
  end.

Definition tolower (c : ascii) : ascii :=
  let n := Str.code c in
  if ((65 <=? n) && (n <=? 90))%N then ascii_of_N (n + 32) else c.

(** [case_insensitive_match]: [t] is lower case; the rest of [s] after [t]. *)
Fixpoint match_nocase (s t : string) : option string :=
  match t with
  | EmptyString => Some s
  | String d t' =>
      match s with
      | String c s' =>
          if Ascii.eqb (tolower c) d then match_nocase s' t' else None
      | EmptyString => None
      end
  end.

(** [_Py_parse_inf_or_nan] *)
Definition parse_inf_or_nan (s : string) : option (float * string) :=
  let '(neg, s1) := read_sign s in
  match match_nocase s1 "inf" with
  | Some s2 =>
      match match_nocase s2 "inity" with
      | Some s3 => Some (inf neg, s3)
      | None => Some (inf neg, s2)
      end
  | None =>
      match match_nocase s1 "nan" with
      | Some s2 => Some (nan, s2)
      | None => None
      end
  end.

(** Underscores are allowed only between two digits; they are removed
    before conversion.  [prev] is the previous character, if any. *)
Fixpoint drop_underscores (s : string) (prev : option ascii) : option string :=
  match s with
  | EmptyString =>
      match prev with
      | Some "_"%char => None
      | _ => Some EmptyString
      end
  | String c s' =>
      if Ascii.eqb c "_" then
        match prev with
        | Some p => if is_digit p then drop_underscores s' (Some c) else None
        | None => None
        end
      else
        match prev with
        | Some "_"%char =>
            if is_digit c then String c <$> drop_underscores s' (Some c)
            else None
        | _ => String c <$> drop_underscores s' (Some c)
        end
  end.

(** Whitespace removed around the literal: the C-locale spaces, and NEL and
    NBSP, which the conversion to ASCII turns into spaces. *)
Definition float_space (c : ascii) : bool :=
  let n := Str.code c in
  ((9 <=? n) && (n <=? 13) || (n =? 32) || (n =? 133) || (n =? 160))%N.

(** [float(s)] for a [str] argument: [ValueError] unless the whole of the
    stripped string is one literal. *)
Definition of_string (s : string) : result float :=
  match drop_underscores (Str.strip_by float_space s) None with
  | None => Raise ValueError
  | Some t =>
      let r := match strtod t with
               | Some r => Some r
               | None => parse_inf_or_nan t
               end in
      match r with
      | Some (x, EmptyString) => Ok x
      | _ => Raise ValueError
      end
  end.

End PyFloat.


(** ** Python [re]: a backtracking matcher

    The matcher explores alternatives in the order of CPython's engine:
    a greedy repetition tries one more iteration before it tries what
    follows, a lazy one the other way round, and the first complete match
    wins.  Positions are suffixes of the subject string. *)

Module Re.

Inductive regex : Type :=
| Chr (p : ascii -> bool)            (* one character: literal, class, \s, . *)
| Eps                                (* the empty pattern *)
| Seq (r1 r2 : regex)                (* r1 r2 *)
| Rep (greedy : bool) (r : regex)    (* r*  and  r*? *)
| Grp (r : regex)                    (* ( r ), the one capturing group *)
| Eos.                               (* $ without MULTILINE *)

(** [r+] and [r+?] *)
Definition Rep1 (greedy : bool) (r : regex) : regex := Seq r (Rep greedy r).

Definition lit (c : ascii) : regex := Chr (Ascii.eqb c).

Fixpoint lits (s : string) : regex :=
  match s with
  | EmptyString => Eps
  | String c s' => Seq (lit c) (lits s')
  end.

(** [\s] in a [str] pattern *)
Definition space : regex := Chr Str.isspace.
(** [.] under [re.DOTALL] *)
Definition dotall : regex := Chr (fun _ => true).
(** [[^()]] *)
Definition not_paren : regex :=
  Chr (fun c => negb (Ascii.eqb c "(" || Ascii.eqb c ")")).

Definition orelse {A} (x : option A) (y : unit -> option A) : option A :=
  match x with
  | Some a => Some a
  | None => y tt
  end.

(** The loop of a repetition whose body is matched by [m]: at most [n]
    further iterations, each of which must consume input. *)
Fixpoint rep_loop {A} (greedy : bool)
    (m : string -> option string ->
         (string -> option string -> option A) -> option A)
    (k : string -> option string -> option A)
    (n : nat) (s : string) (g : option string) : option A :=
  let more (_ : unit) :=
    match n with
    | O => None
    | S n' =>
        m s g (fun s' g' =>
          if (String.length s' <? String.length s)%nat
          then rep_loop greedy m k n' s' g'
          else None)
    end in
  if greedy then orelse (more tt) (fun _ => k s g)
  else orelse (k s g) more.

(** [exec r s g k]: match [r] at the suffix [s] with group 1 holding [g],
    then continue with [k] on the new suffix and group; [None] when every
    alternative fails.  A repetition at [s] is given [length s] iterations,
    which it cannot exhaust (lemma [rep_loop_fuel] below). *)
Fixpoint exec {A} (r : regex) (s : string) (g : option string)
    (k : string -> option string -> option A) : option A :=
  match r with
  | Chr p =>
      match s with
      | String c s' => if p c then k s' g else None
      | EmptyString => None
      end
  | Eps => k s g
  | Seq r1 r2 => exec r1 s g (fun s' g' => exec r2 s' g' k)
  | Rep greedy r1 =>
      rep_loop greedy (fun s' g' k' => exec r1 s' g' k') k
        (String.length s) s g
  | Grp r1 =>
      exec r1 s g (fun s' _ =>
        k s' (Some (Str.take (String.length s - String.length s') s)))
  | Eos =>
      match s with
      | EmptyString => k s g
      | String c EmptyString => if Ascii.eqb c "010" then k s g else None
      | _ => None
      end
  end.

(** A match at the start of [s]: the unread rest and group 1. *)
Definition match_at (r : regex) (s : string) : option (string * option string) :=
  exec r s None (fun s' g => Some (s', g)).

Definition group1 (g : option string) : string := default EmptyString g.

(** [re.match(r, s).group(1)], [None] when there is no match. *)
Definition re_match (r : regex) (s : string) : option string :=
  (fun m => group1 m.2) <$> match_at r s.

(** [re.search(r, s).group(1)]: the leftmost match. *)
Fixpoint re_search (r : regex) (s : string) : option string :=
  match match_at r s with
  | Some (_, g) => Some (group1 g)
  | None =>
      match s with
      | String _ s' => re_search r s'
      | EmptyString => None
      end
  end.

(** [re.findall(r, s)] for a pattern with one group whose matches are not
    empty: group 1 of the successive non-overlapping matches, left to
    right.  [skip] counts the characters of the last match still to pass. *)
Fixpoint findall_from (r : regex) (s : string) (skip : nat) : list string :=
  match skip with
  | S n =>
      match s with
      | String _ s' => findall_from r s' n
      | EmptyString => []
      end
  | O =>
      match match_at r s with
      | Some (rest, g) =>
          group1 g ::
          match s with
          | String _ s' =>
              findall_from r s' (String.length s - String.length rest - 1)
          | EmptyString => []
          end
      | None =>
          match s with
          | String _ s' => findall_from r s' 0
          | EmptyString => []
          end
      end
  end.

Definition re_findall (r : regex) (s : string) : list string :=
  findall_from r s 0.

(** [re.split(r, s)] for a pattern without groups whose matches are not
    empty.  [cur] is the piece being read. *)
Fixpoint split_from (r : regex) (s : string) (skip : nat) (cur : string)
  : list string :=
  match skip with
  | S n =>
      match s with
      | String _ s' => split_from r s' n cur
      | EmptyString => [cur]
      end
  | O =>
      match s with
      | EmptyString => [cur]
      | String c s' =>
          match match_at r s with
          | Some (rest, _) =>
              cur :: split_from r s'
                       (String.length s - String.length rest - 1) EmptyString
          | None => split_from r s' 0 (cur ++ String c EmptyString)
          end
      end
  end.

Definition re_split (r : regex) (s : string) : list string :=
  split_from r s 0 EmptyString.

End Re.

(** ** src/backend.py *)

Module Backend.
Import Re.

(** A coordinate is the Python list [[lon, lat]]. *)
Definition Coordinate : Set := list PyFloat.float.
Definition Ring : Set := list Coordinate.
Definition Polygon : Set := list Ring.

(** The value of a [the_geom] cell: a string, or one of the missing markers
    for which [pd.isna] is true. *)
Inductive pyval : Set :=
| PyNone
| PyNaN
| PyStr (s : string).

(** [pd.isna(v)] on a scalar *)
Definition isna (v : pyval) : bool :=
  match v with
  | PyStr _ => false
  | _ => true
  end.

(** Line 349, with [re.DOTALL]; written with spaces between the items:
    [MULTIPOLYGON \s* \( \s* (.+) \s* \) $] *)
Definition outer_pattern : regex :=
  Seq (lits "MULTIPOLYGON")
 (Seq (Rep true space)
 (Seq (lit "(")
 (Seq (Rep true space)
 (Seq (Grp (Rep1 true dotall))
 (Seq (Rep true space)
 (Seq (lit ")") Eos)))))).

(** Line 359: [\( \( ( [^()]+ (?: \( [^()]* \) [^()]* )* ) \) \)] *)
Definition polygon_pattern : regex :=
  Seq (lits "((")
 (Seq (Grp (Seq (Rep1 true not_paren)
                (Rep true (Seq (lit "(")
                          (Seq (Rep true not_paren)
                          (Seq (lit ")") (Rep true not_paren)))))))
      (lits "))")).

(** Line 365: [\) \s* , \s* \(] *)
Definition ring_separator : regex :=
  Seq (lit ")") (Seq (Rep true space) (Seq (lit ",") (Seq (Rep true space) (lit "(")))).

(** Line 393, with [re.DOTALL]: [\( \( \( (.+?) \) \) \)] *)
Definition triple_pattern : regex :=
  Seq (lits "(((") (Seq (Grp (Rep1 false dotall)) (lits ")))")).

(** The body of the loop over pairs (lines 373-382 and again 397-406). *)
Definition pair_step (coords : Ring) (pair : string) : result Ring :=
  let pair := Str.strip pair in
  let parts := Str.split_ws pair in
  if (2 <=? length parts)%nat then
    except_ValueError
      (p0 ← getitem parts 0;
       lon ← PyFloat.of_string p0;
       p1 ← getitem parts 1;
       lat ← PyFloat.of_string p1;
       Ok (coords ++ [[lon; lat]]))
      (Ok coords)
  else Ok coords.

(** [coords = []; for pair in s.split(','): ...] *)
Definition parse_coords (s : string) : result Ring :=
  for_each pair_step (Str.split_char "," s) [].

(** The body of the loop over ring strings (lines 367-385). *)
Definition ring_step (rings : Polygon) (ring_str : string) : result Polygon :=
  let ring_str := Str.strip_chars "()" (Str.strip ring_str) in
  coords ← parse_coords ring_str;
  Ok (if (3 <=? length coords)%nat then rings ++ [coords] else rings).

(** The body of the loop over polygon groups (lines 362-388). *)
Definition polygon_step (polygons : list Polygon) (poly_content : string)
  : result (list Polygon) :=
  let ring_parts := re_split ring_separator poly_content in
  rings ← for_each ring_step ring_parts [];
  Ok (match rings with
      | [] => polygons
      | _ :: _ => polygons ++ [rings]
      end).

(** Lines 355-388: the structured path. *)
Definition structured_polygons (content : string) : result (list Polygon) :=
  for_each polygon_step (re_findall polygon_pattern content) [].

(** Lines 391-408: the single-polygon path, run when [polygons] is empty. *)
Definition fallback_polygons (wkt_string : string) : result (list Polygon) :=
  match re_search triple_pattern wkt_string with
  | Some coords_str =>
      coords ← parse_coords coords_str;
      Ok (if (3 <=? length coords)%nat then [[coords]] else [])
  | None => Ok []
  end.

(** Lines 355-408: the list [polygons] as it stands at line 410. *)
Definition retained_polygons (wkt_string content : string)
  : result (list Polygon) :=
  polygons ← structured_polygons content;
  match polygons with
  | [] => fallback_polygons wkt_string
  | _ :: _ => Ok polygons
  end.

(** Lines 329-410. *)
Definition parse_wkt_multipolygon (wkt_string : pyval)
  : result (option (list Polygon)) :=
  match wkt_string with
  | PyNone | PyNaN => Ok None
  | PyStr s =>
      if Str.is_empty s then Ok None
      else
        let wkt_string := Str.strip s in
        if negb (Str.startswith wkt_string "MULTIPOLYGON") then Ok None
        else
          match re_match outer_pattern wkt_string with
          | None => Ok None
          | Some content =>
              polygons ← retained_polygons wkt_string content;
              Ok (match polygons with
                  | [] => None
                  | _ :: _ => Some polygons
                  end)
          end
  end.

(** One row of [nta_geo]. [NTA2020] is read with [row.get("NTA2020", "")]. *)
Record Row : Set := mkRow {
  NTAName : string;
  BoroName : string;
  NTA2020 : option string;
  the_geom : pyval
}.

Inductive Geometry : Set :=
| GPolygon (coordinates : Polygon)
| GMultiPolygon (coordinates : list Polygon).

Record Properties : Set := mkProperties {
  p_NTAName : string;
  p_BoroName : string;
  p_NTA2020 : string
}.

Record Feature : Set := mkFeature {
  geometry : Geometry;
  properties : Properties;
  id : string
}.

Record FeatureCollection : Set := mkFeatureCollection {
  features : list Feature
}.

(** Lines 428-438: the geometry type follows the number of polygons. *)
Definition make_geometry (polygons : list Polygon) : result Geometry :=
  if (length polygons =? 1)%nat then
    p ← getitem polygons 0; Ok (GPolygon p)
  else Ok (GMultiPolygon polygons).

(** The body of the loop over rows (lines 423-450). *)
Definition row_step (features : list Feature) (row : Row)
  : result (list Feature) :=
  polygons ← parse_wkt_multipolygon (the_geom row);
  match polygons with
  | None => Ok features
  | Some polygons =>
      geometry ← make_geometry polygons;
      let feature :=
        {| geometry := geometry;
           properties := {| p_NTAName := NTAName row;
                            p_BoroName := BoroName row;
                            p_NTA2020 := default EmptyString (NTA2020 row) |};
           id := NTAName row |} in
      Ok (features ++ [feature])
  end.

(** Lines 414-455, with the dataset [nta_geo] as an argument. *)
Definition create_nta_geojson_full (nta_geo : list Row)
  : result FeatureCollection :=
  features ← for_each row_step nta_geo [];
  Ok {| features := features |}.

(** The geometry of one cell, as [row_step] computes it: absent when the
    row is skipped. *)
Definition build_geometry (v : pyval) : result (option Geometry) :=
  polygons ← parse_wkt_multipolygon v;
  match polygons with
  | None => Ok None
  | Some polygons => Some <$> make_geometry polygons
  end.

End Backend.

Import Re Backend.

(** * Statements on the side of the specification *)

Module Spec.

(** Coordinate Parser, the rule for one comma-separated candidate: it
    contributes a coordinate when it has at least two whitespace-separated
    tokens and the first two parse as floats, longitude then latitude. *)
Definition candidate (pair : string) : option Coordinate :=
  match Str.split_ws pair with
  | t1 :: t2 :: _ =>
      match PyFloat.of_string t1, PyFloat.of_string t2 with
      | Ok lon, Ok lat => Some [lon; lat]
      | _, _ => None
      end
  | _ => None
  end.

(** The coordinates of a ring string: the contributions of its candidates,
    in order. *)
Definition coordinates (ring_str : string) : Ring :=
  omap candidate (Str.split_char "," ring_str).

(** A coordinate is made of the first two tokens of some pair. *)
Definition coordinate_ok (c : Coordinate) : Prop :=
  exists pair t1 t2 rest lon lat,
    Str.split_ws pair = t1 :: t2 :: rest
    /\ PyFloat.of_string t1 = Ok lon
    /\ PyFloat.of_string t2 = Ok lat
    /\ c = [lon; lat].

(** A retained ring has at least 3 coordinates. *)
Definition ring_ok (r : Ring) : Prop :=
  3 <= length r /\ Forall coordinate_ok r.

(** A retained polygon has at least one ring. *)
Definition polygon_ok (p : Polygon) : Prop :=
  p <> [] /\ Forall ring_ok p.

(** Feature Assembler: the feature of a row, when its geometry is present. *)
Definition feature_of_row (row : Row) : option Feature :=
  match build_geometry (the_geom row) with
  | Ok (Some g) =>
      Some {| geometry := g;
              properties := {| p_NTAName := NTAName row;
                               p_BoroName := BoroName row;
                               p_NTA2020 := default EmptyString (NTA2020 row) |};
              id := NTAName row |}
  | _ => None
  end.

(** Geometry Builder, the selection rule: the geometry of a final list of
    polygons follows its length. *)
Definition select_geometry (polygons : list Polygon) : option Geometry :=
  match polygons with
  | [] => None
  | [p] => Some (GPolygon p)
  | _ :: _ :: _ => Some (GMultiPolygon polygons)
  end.

(** The outcome of the single-polygon path on a string: one polygon of one
    ring holding the coordinates of the first triple-parenthesis block, when
    there is such a block and it has at least 3 coordinates. *)
Definition fallback_outcome (wkt : string) : option (list Polygon) :=
  match re_search triple_pattern wkt with
  | Some coords_str =>
      let coords := coordinates coords_str in
      if (3 <=? length coords)%nat then Some [[coords]] else None
  | None => None
  end.

(** The string passes the checks of lines 340-351 and [content] is what the
    outer pattern captures. *)
Definition accepted (s content : string) : Prop :=
  Str.is_empty s = false
  /\ Str.startswith (Str.strip s) "MULTIPOLYGON" = true
  /\ re_match outer_pattern (Str.strip s) = Some content.

(** The coordinate read from one comma-separated pair: the floats of the
    first two whitespace-separated tokens of the pair, longitude first,
    latitude second. *)
Definition coordinate_of_pair (c : Coordinate) (pair : string) : Prop :=
  exists t1 t2 rest lon lat,
    Str.split_ws pair = t1 :: t2 :: rest
    /\ PyFloat.of_string t1 = Ok lon
    /\ PyFloat.of_string t2 = Ok lat
    /\ c = [lon; lat].

(** The coordinates of a ring are read, in order, from comma-separated
    pairs of the ring string, each coordinate from its own pair. *)
Definition read_from (ring : Ring) (ring_str : string) : Prop :=
  exists pairs,
    pairs `sublist_of` Str.split_char "," ring_str
    /\ Forall2 coordinate_of_pair ring pairs.

(** The ring strings of a text whose content is [content]: a part of a
    group that the polygon pattern finds in the content, cleaned as at
    line 369, or what the first triple-parenthesis block of the text
    holds. *)
Definition ring_source (s content ring_str : string) : Prop :=
  (exists group part,
      group ∈ re_findall polygon_pattern content
      /\ part ∈ re_split ring_separator group
      /\ ring_str = Str.strip_chars "()" (Str.strip part))
  \/ re_search triple_pattern (Str.strip s) = Some ring_str.

(** A ring string whose coordinates number fewer than 3. *)
Definition degenerate (ring_str : string) : Prop :=
  length (coordinates (Str.strip_chars "()" (Str.strip ring_str))) < 3.

(** The degenerate-ring rule, first part: the ring is dropped. *)
Definition degenerate_ring_dropped : Prop :=
  forall rings ring_str,
    degenerate ring_str -> ring_step rings ring_str = Ok rings.

(** The degenerate-ring rule, second part: a polygon group whose only ring
    is degenerate is dropped. *)
Definition degenerate_polygon_dropped : Prop :=
  forall polygons poly_content ring_str,
    re_split ring_separator poly_content = [ring_str] ->
    degenerate ring_str ->
    polygon_step polygons poly_content = Ok polygons.

(** The degenerate-ring rule, third part, as the specification words it:
    when the only polygon group of the geometry is dropped in this way, the
    geometry is absent. *)
Definition degenerate_geometry_absent : Prop :=
  forall s content poly_content ring_str,
    accepted s content ->
    re_findall polygon_pattern content = [poly_content] ->
    re_split ring_separator poly_content = [ring_str] ->
    degenerate ring_str ->
    parse_wkt_multipolygon (PyStr s) = Ok None.

(** The degenerate-ring rule as the specification words it. *)
Definition degenerate_rule_as_stated : Prop :=
  degenerate_ring_dropped
  /\ degenerate_polygon_dropped
  /\ degenerate_geometry_absent.

(** The floats of the integers, for expected values. *)
Definition F (z : Z) : PyFloat.float := PyFloat.of_Z z.

End Spec.

(** * More of the repository

    The other functions of [backend.py] that do not go through pandas
    aggregation, the pure helpers of [ui_helpers.py], and the statements of
    [visualizations.get_nta_choropleth_map] that read the collection. *)

(** ** Python [int(str)], [str(int)] and indexing with negative indices *)

Module PyInt.

(** [sys.get_int_max_str_digits()], the default of CPython 3.11. *)
Definition max_str_digits : nat := 4300.

(** [int(s)] for a [str] argument in base 10: surrounding whitespace, an
    optional sign, digits with single underscores between them; anything
    else, or more than [max_str_digits] digits, is a [ValueError]. *)
Definition of_string (s : string) : result Z :=
  let t := Str.strip_by PyFloat.float_space s in
  let '(neg, t1) := PyFloat.read_sign t in
  match PyFloat.drop_underscores t1 None with
  | None => Raise ValueError
  | Some t2 =>
      let '(v, cnt, rest) := PyFloat.read_digits t2 0%N 0 in
      match cnt, rest with
      | S _, EmptyString =>
          if (cnt <=? max_str_digits)%nat
          then Ok (if neg then - Z.of_N v else Z.of_N v)%Z
          else Raise ValueError
      | _, _ => Raise ValueError
      end
  end.

(** The decimal digits of a natural number, without sign. *)
Definition digits (z : Z) : string :=
  NilZero.string_of_uint (N.to_uint (Z.abs_N z)).

(** [str(z)], also what an f-string prints for an [int]. *)
Definition to_string (z : Z) : result string :=
  if (String.length (digits z) <=? max_str_digits)%nat
  then Ok (if (z <? 0)%Z then String "-" (digits z) else digits z)
  else Raise ValueError.

(** [xs[i]] for an [int] index: a negative index counts from the end. *)
Definition getitem_int {A} (xs : list A) (i : Z) : result A :=
  let n := Z.of_nat (length xs) in
  let j := if (i <? 0)%Z then (i + n)%Z else i in
  if ((0 <=? j) && (j <? n))%Z then getitem xs (Z.to_nat j)
  else Raise IndexError.

(** [s[n:]] *)
Fixpoint slice_from (n : nat) (s : string) : string :=
  match n, s with
  | S n', String _ s' => slice_from n' s'
  | _, _ => s
  end.

(** [s[:n]] *)
Definition slice_to (n : nat) (s : string) : string := Str.take n s.

End PyInt.

(** ** src/backend.py, continued *)

Module Backend2.

(** What [get_nta_geometry_dict] can do: return, or raise [KeyError] at
    [row["NTA2020"]] when the row has no such key. *)
Inductive lookup (A : Type) : Type :=
| Returned (a : A)
| RaisedKeyError.
Arguments Returned {A} a.
Arguments RaisedKeyError {A}.

(** A feature of [get_nta_geometry_dict]: properties and id, no geometry. *)
Record PlainFeature : Set := mkPlainFeature {
  plain_properties : Properties;
  plain_id : string
}.

(** The body of the loop of lines 305-321. *)
Definition plain_row_step (features : list PlainFeature) (row : Row)
  : lookup (list PlainFeature) :=
  let geom_str := the_geom row in
  if isna geom_str then Returned features
  else
    match NTA2020 row with
    | None => RaisedKeyError
    | Some code =>
        let feature :=
          {| plain_properties := {| p_NTAName := NTAName row;
                                    p_BoroName := BoroName row;
                                    p_NTA2020 := code |};
             plain_id := NTAName row |} in
        Returned (features ++ [feature])
    end.

Fixpoint plain_loop (rows : list Row) (features : list PlainFeature)
  : lookup (list PlainFeature) :=
  match rows with
  | [] => Returned features
  | row :: rows' =>
      match plain_row_step features row with
      | Returned features' => plain_loop rows' features'
      | RaisedKeyError => RaisedKeyError
      end
  end.

(** Lines 298-326, with the dataset [nta_geo] as an argument; the result
    is the list under ["features"]. *)
Definition get_nta_geometry_dict (nta_geo : list Row)
  : lookup (list PlainFeature) :=
  plain_loop nta_geo [].

(** Lines 250-253, the helper of [get_ranking_text]. *)
Definition ordinal_suffix (n : Z) : string :=
  if ((11 <=? n) && (n <=? 13))%Z then "th"
  else match (n mod 10)%Z with
       | 1%Z => "st"
       | 2%Z => "nd"
       | 3%Z => "rd"
       | _ => "th"
       end.

End Backend2.

(** ** src/ui_helpers.py *)

Module UiHelpers.
Import PyInt.

(** Lines 11-17: the dict [defaults]. *)
Definition defaults : gmap string Z :=
  list_to_map [("Manhattan", 0%Z); ("Brooklyn", 0%Z); ("Queens", 0%Z);
               ("Bronx", 0%Z); ("Staten Island", 0%Z)].

(** Lines 5-18: [defaults.get(borough, 0)]. *)
Definition get_nta_index (borough : string) : Z :=
  default 0%Z (defaults !! borough).

Definition months : list string :=
  ["Jan"; "Feb"; "Mar"; "Apr"; "May"; "Jun";
   "Jul"; "Aug"; "Sep"; "Oct"; "Nov"; "Dec"].

(** Lines 63-69. *)
Definition format_year_month (year_month : string) : result string :=
  let year := slice_to 4 year_month in
  n ← of_string (slice_from 4 year_month);
  let month_idx := (n - 1)%Z in
  month ← getitem_int months month_idx;
  Ok (month ++ " " ++ year)%string.

(** [sorted(xs)] on strings: ascending by code points. *)
Definition sorted (xs : list string) : list string :=
  merge_sort String.le xs.

(** [x in xs] *)
Definition contains (x : string) (xs : list string) : bool :=
  existsb (String.eqb x) xs.

(** Lines 72-95. *)
Definition get_comparison_periods (year_months : list string)
  : result (string * string) :=
  let sorted_months := sorted year_months in
  if (length sorted_months <? 2)%nat then
    a ← getitem_int sorted_months 0;
    b ← getitem_int sorted_months 0;
    Ok (a, b)
  else
    latest ← getitem_int sorted_months (-1);
    latest_year ← of_string (slice_to 4 latest);
    let latest_month := slice_from 4 latest in
    year_text ← to_string (latest_year - 1);
    let previous_year_same_month := (year_text ++ latest_month)%string in
    if contains previous_year_same_month sorted_months then
      Ok (previous_year_same_month, latest)
    else
      a ← getitem_int sorted_months (-2);
      b ← getitem_int sorted_months (-1);
      Ok (a, b).

End UiHelpers.

(** ** src/visualizations.py: what [get_nta_choropleth_map] reads from the
    collection *)

Module Visualizations.

(** Line 617: [[f["id"] for f in geojson["features"]]]. *)
Definition geojson_ntas (geojson : FeatureCollection) : list string :=
  map id (features geojson).

(** The loop of lines 690-694: the first feature whose id is
    [selected_nta]. *)
Fixpoint first_with_id (fs : list Feature) (selected_nta : string)
  : option Feature :=
  match fs with
  | [] => None
  | feature :: fs' =>
      if String.eqb (id feature) selected_nta then Some feature
      else first_with_id fs' selected_nta
  end.

(** Lines 687-694: [selected_nta] is [None] or a string, and the search is
    made when it is a non-empty string. *)
Definition selected_feature (geojson : FeatureCollection)
    (selected_nta : option string) : option Feature :=
  match selected_nta with
  | None => None
  | Some nta =>
      if Str.is_empty nta then None
      else first_with_id (features geojson) nta
  end.

End Visualizations.

(** ** Statements used for the functions above *)

Module Spec2.
Import Backend2 UiHelpers.

(** The English ordinal suffix of a natural number: "th" for the teens
    11, 12 and 13 of every hundred, otherwise by the last digit. *)
Definition english_suffix (n : Z) : string :=
  if ((11 <=? n mod 100) && (n mod 100 <=? 13))%Z then "th"
  else match (n mod 10)%Z with
       | 1%Z => "st"
       | 2%Z => "nd"
       | 3%Z => "rd"
       | _ => "th"
       end.

(** The plain feature of a row that has the key [NTA2020]. *)
Definition plain_feature (row : Row) (code : string) : PlainFeature :=
  {| plain_properties := {| p_NTAName := NTAName row;
                            p_BoroName := BoroName row;
                            p_NTA2020 := code |};
     plain_id := NTAName row |}.

(** A row that [get_nta_geometry_dict] cannot read: it has a geometry cell
    and no key [NTA2020]. *)
Definition unreadable (row : Row) : Prop :=
  isna (the_geom row) = false /\ NTA2020 row = None.

(** The rows [get_nta_geometry_dict] keeps. *)
Definition has_geometry_cell (row : Row) : bool := negb (isna (the_geom row)).

(** The two-digit codes of the months, in the order of [months]. *)
Definition month_codes : list string :=
  ["01"; "02"; "03"; "04"; "05"; "06"; "07"; "08"; "09"; "10"; "11"; "12"].

(** A period written as the repository writes it: four characters of year
    and a two-digit month. *)
Definition well_formed_period (year_month : string) : Prop :=
  exists year code,
    String.length year = 4
    /\ code ∈ month_codes
    /\ year_month = (year ++ code)%string.

(** A period as the data has it: a year from 1000 to 9999 in decimal and
    a two-digit month. *)
Definition dated_period (year_month : string) : Prop :=
  exists y code,
    (1000 <= y <= 9999)%Z
    /\ code ∈ month_codes
    /\ year_month = (PyInt.digits y ++ code)%string.

(** *** Multipolygon texts in the standard writing *)

Fixpoint all_chars (p : ascii -> bool) (s : string) : bool :=
  match s with
  | EmptyString => true
  | String c s' => p c && all_chars p s'
  end.

(** No parenthesis in the text. *)
Definition paren_free (s : string) : bool :=
  all_chars (fun c => negb (Ascii.eqb c "(" || Ascii.eqb c ")")) s.

(** The text does not begin with a closing parenthesis. *)
Definition not_closing (s : string) : bool :=
  match s with
  | String c _ => negb (Ascii.eqb c ")")
  | EmptyString => true
  end.

(** No opening parenthesis of the text is followed by another or ends the
    text; [after_open] tells that the character before the text is an
    opening parenthesis. *)
Fixpoint quiet (after_open : bool) (s : string) : bool :=
  match s with
  | EmptyString => negb after_open
  | String c s' =>
      if Ascii.eqb c "(" then negb after_open && quiet true s'
      else quiet false s'
  end.

(** A ring, a polygon as its rings, and the polygons of a multipolygon,
    each list written with the separator [sep] between its items. *)
Definition ring_text (ring : string) : string := "(" ++ ring ++ ")".

Definition polygon_text (sep : string) (rings : list string) : string :=
  "(" ++ String.concat sep (map ring_text rings) ++ ")".

Definition content_text (sep : string) (polygons : list (list string))
  : string :=
  String.concat sep (map (polygon_text sep) polygons).

Definition wkt_text (ws sep : string) (polygons : list (list string))
  : string :=
  "MULTIPOLYGON" ++ ws ++ "(" ++ content_text sep polygons ++ ")".

(** The separator and the rings have no parenthesis, no ring is empty and
    no polygon is without rings. *)
Definition well_written (sep : string) (polygons : list (list string))
  : Prop :=
  paren_free sep = true
  /\ Forall (fun rings =>
               rings <> []
               /\ Forall (fun ring =>
                            ring <> EmptyString /\ paren_free ring = true)
                         rings)
            polygons.

(** The rings of the polygons that have one ring, that is no hole. *)
Definition hole_free_rings (polygons : list (list string)) : list string :=
  concat (map (fun rings => match rings with
                            | [ring] => [ring]
                            | _ => []
                            end) polygons).

(** The polygon read from the text of one ring. *)
Definition ring_polygon (ring : string) : option Polygon :=
  let coords := Spec.coordinates (Str.strip_chars "()" (Str.strip ring)) in
  if (3 <=? length coords)%nat then Some [coords] else None.

End Spec2.

(** ** Steps of the matcher, for the proofs *)

Ltac exec_seq :=
  change (exec (Seq ?r1 ?r2) ?s ?g ?k)
    with (exec r1 s g (fun s' g' => exec r2 s' g' k)).

Ltac exec_grp :=
  change (exec (Grp ?r1) ?s ?g ?k)
    with (exec r1 s g (fun s' _ =>
            k s' (Some (Str.take (String.length s - String.length s') s)))).

(** * Checks of the built-in models against CPython *)

Example of_string_examples :
  PyFloat.of_string "0.1" = Ok (S754_finite false 7205759403792794 (-56)) /\
  PyFloat.of_string "10" = Ok (PyFloat.of_Z 10) /\
  PyFloat.of_string "-73.97" = Ok (S754_finite true 5205176006821806 (-46)) /\
  PyFloat.of_string "1e400" = Ok (S754_infinity false) /\
  PyFloat.of_string "1_0.5E-1" = Ok (S754_finite false 4728779608739021 (-52)) /\
  PyFloat.of_string "-Infinity" = Ok (S754_infinity true) /\
  PyFloat.of_string "5e-324" = Ok (S754_finite false 1 (-1074)) /\
  PyFloat.of_string "0)" = Raise ValueError /\
  PyFloat.of_string "1e" = Raise ValueError /\
  PyFloat.of_string "." = Raise ValueError /\
  PyFloat.of_string "" = Raise ValueError.
Proof. vm_compute. repeat split. Qed.

Example more_floats :
  PyFloat.of_string "2.5e-324" = Ok (S754_finite false 1 (-1074)) /\
  PyFloat.of_string "2.4e-324" = Ok (S754_zero false) /\
  PyFloat.of_string "1e23" = Ok (S754_finite false 5960464477539062 24) /\
  PyFloat.of_string "8.5" = Ok (S754_finite false 4785074604081152 (-49)) /\
  PyFloat.of_string "9007199254740993" = Ok (S754_finite false 4503599627370496 1) /\
  PyFloat.of_string "1.7976931348623159e308" = Ok (S754_infinity false) /\
  PyFloat.of_string "1.7976931348623158e308" = Ok (S754_finite false 9007199254740991 971) /\
  PyFloat.of_string "-0" = Ok (S754_zero true) /\
  PyFloat.of_string "1__0" = Raise ValueError /\
  PyFloat.of_string "1_" = Raise ValueError /\
  PyFloat.of_string "_1" = Raise ValueError /\
  PyFloat.of_string "1_.5" = Raise ValueError /\
  PyFloat.of_string "1._5" = Raise ValueError /\
  PyFloat.of_string "1e1_0" = Ok (PyFloat.of_Z 10000000000) /\
  PyFloat.of_string "+.5e+1" = Ok (PyFloat.of_Z 5) /\
  PyFloat.of_string "5." = Ok (PyFloat.of_Z 5) /\
  PyFloat.of_string "0x10" = Raise ValueError /\
  PyFloat.of_string "nAn" = Ok S754_nan /\
  PyFloat.of_string "infinit" = Raise ValueError /\
  PyFloat.of_string " 1 " = Ok (PyFloat.of_Z 1).
Proof. vm_compute. repeat split. Qed.

(** * Lemmas on the control structures *)

Section ForEach.
Context {S A : Type}.
Variable body : S -> A -> result S.

Lemma for_each_app (xs ys : list A) (st : S) :
  for_each body (xs ++ ys) st
  = (st' ← for_each body xs st; for_each body ys st').
Proof.
  revert st. induction xs as [|x xs IH]; intros st; simpl; [reflexivity|].
  destruct (body st x) as [st1|e]; simpl; [apply IH | reflexivity].
Qed.

(** A loop whose body never raises never raises. *)
Lemma for_each_total :
  (forall st x, exists st', body st x = Ok st') ->
  forall xs st, exists st', for_each body xs st = Ok st'.
Proof.
  intros Hbody xs. induction xs as [|x xs IH]; intros st; simpl.
  - eauto.
  - destruct (Hbody st x) as [st1 ->]. simpl. apply IH.
Qed.

(** Loop invariants. *)
Lemma for_each_invariant (P : S -> Prop) :
  (forall st x st', P st -> body st x = Ok st' -> P st') ->
  forall xs st st', P st -> for_each body xs st = Ok st' -> P st'.
Proof.
  intros Hbody xs. induction xs as [|x xs IH]; intros st st' HP; simpl.
  - intros [= <-]. exact HP.
  - destruct (body st x) as [st1|e] eqn:E; simpl; [|discriminate].
    apply IH. eapply Hbody; eauto.
Qed.

End ForEach.

(** A loop that appends the contribution of each element computes the
    concatenation of the contributions. *)
Lemma for_each_append {A B : Type} (body : list B -> A -> result (list B))
    (f : A -> list B) :
  (forall st x, body st x = Ok (st ++ f x)) ->
  forall xs st, for_each body xs st = Ok (st ++ concat (map f xs)).
Proof.
  intros Hbody xs. induction xs as [|x xs IH]; intros st; simpl.
  - rewrite app_nil_r. reflexivity.
  - rewrite Hbody. simpl. rewrite IH, app_assoc. reflexivity.
Qed.

(** * Lemmas on the string functions *)

Lemma split_ws_lstrip (s : string) :
  Str.split_ws_from (Str.lstrip_by Str.isspace s) EmptyString
  = Str.split_ws_from s EmptyString.
Proof.
  induction s as [|c s IH]; simpl; [reflexivity|].
  destruct (Str.isspace c) eqn:E; simpl.
  - exact IH.
  - rewrite E. reflexivity.
Qed.

Lemma split_ws_rstrip (s tok : string) :
  Str.split_ws_from (Str.rstrip_by Str.isspace s) tok
  = Str.split_ws_from s tok.
Proof.
  revert tok. induction s as [|c s IH]; intros tok; simpl; [reflexivity|].
  destruct (Str.is_empty (Str.rstrip_by Str.isspace s)) eqn:Er;
    destruct (Str.isspace c) eqn:Ec; simpl; rewrite ?Ec, ?IH; try reflexivity.
  rewrite <- (IH EmptyString).
  destruct (Str.rstrip_by Str.isspace s); [|discriminate].
  reflexivity.
Qed.

(** Stripping a string does not change its whitespace-separated tokens. *)
Lemma split_ws_strip (s : string) :
  Str.split_ws (Str.strip s) = Str.split_ws s.
Proof.
  unfold Str.split_ws, Str.strip, Str.strip_by.
  rewrite split_ws_rstrip. apply split_ws_lstrip.
Qed.

(** [float] raises nothing but [ValueError]. *)
Lemma of_string_cases (s : string) :
  (exists x, PyFloat.of_string s = Ok x)
  \/ PyFloat.of_string s = Raise ValueError.
Proof.
  unfold PyFloat.of_string.
  destruct (PyFloat.drop_underscores _ _) as [t|]; [|right; reflexivity].
  destruct (match PyFloat.strtod t with
            | Some r => Some r
            | None => PyFloat.parse_inf_or_nan t
            end) as [[x [|c r]]|]; eauto.
Qed.

(** * Lemmas on the matcher *)

Section Matcher.
Context {A : Type}.
Implicit Types (k : string -> option string -> option A).

Lemma rep_loop_ext greedy
    (m : string -> option string ->
         (string -> option string -> option A) -> option A) k1 k2 :
  (forall s g k k', (forall s' g', k s' g' = k' s' g') -> m s g k = m s g k') ->
  (forall s g, k1 s g = k2 s g) ->
  forall n s g, rep_loop greedy m k1 n s g = rep_loop greedy m k2 n s g.
Proof.
  intros Hm Hk n. induction n as [|n IH]; intros s g; simpl.
  - rewrite Hk. reflexivity.
  - rewrite Hk. erewrite Hm; [reflexivity|].
    intros s' g'. simpl. destruct (_ <? _)%nat; [apply IH | reflexivity].
Qed.

(** The result depends on the continuation only through its values. *)
Lemma exec_ext (r : regex) :
  forall s g k k',
    (forall s' g', k s' g' = k' s' g') -> exec r s g k = exec r s g k'.
Proof.
  induction r as [p| |r1 IH1 r2 IH2|greedy r1 IH1|r1 IH1|];
    intros s g k k' Hk; simpl.
  - destruct s as [|c s]; [reflexivity|]. destruct (p c); [apply Hk|reflexivity].
  - apply Hk.
  - apply IH1. intros s' g'. apply IH2, Hk.
  - apply rep_loop_ext; [|exact Hk]. intros; apply IH1; assumption.
  - apply IH1. intros s' g'. apply Hk.
  - destruct s as [|c [|d s]]; rewrite ?Hk; reflexivity.
Qed.

(** A continuation that always fails makes the match fail. *)
Lemma exec_fail (r : regex) :
  forall s g k, (forall s' g', k s' g' = None) -> exec r s g k = None.
Proof.
  induction r as [p| |r1 IH1 r2 IH2|greedy r1 IH1|r1 IH1|];
    intros s g k Hk; simpl.
  - destruct s as [|c s]; [reflexivity|]. destruct (p c); [apply Hk|reflexivity].
  - apply Hk.
  - apply IH1. intros s' g'. apply IH2, Hk.
  - generalize (String.length s) at 1. intros n. revert s g.
    induction n as [|n IHn]; intros s g; simpl.
    + rewrite Hk. destruct greedy; reflexivity.
    + rewrite Hk, IH1; [destruct greedy; reflexivity|].
      intros s' g'. simpl. destruct (_ <? _)%nat; [apply IHn | reflexivity].
  - apply IH1. intros s' g'. apply Hk.
  - destruct s as [|c [|d s]]; rewrite ?Hk; try reflexivity.
    destruct (Ascii.eqb c "010"); reflexivity.
Qed.

(** The bound on the iterations of a repetition is never reached: every
    bound of at least the length of the subject gives the same result. *)
Lemma rep_loop_fuel (r : regex) greedy k :
  forall n n' s g,
    String.length s <= n -> String.length s <= n' ->
    rep_loop greedy (fun s' g' k' => exec r s' g' k') k n s g
    = rep_loop greedy (fun s' g' k' => exec r s' g' k') k n' s g.
Proof.
  assert (Hzero : forall n s g,
            String.length s = 0 ->
            rep_loop greedy (fun s' g' k' => exec r s' g' k') k n s g
            = rep_loop greedy (fun s' g' k' => exec r s' g' k') k 0 s g).
  { intros [|n] s g Hs; [reflexivity|]. simpl.
    rewrite exec_fail; [reflexivity|].
    intros s' g'. simpl. rewrite Hs.
    destruct (_ <? 0)%nat eqn:E; [|reflexivity].
    apply Nat.ltb_lt in E. lia. }
  induction n as [|n IH]; intros n' s g Hn Hn'.
  - symmetry. apply Hzero. lia.
  - destruct n' as [|n']; [apply Hzero; lia|]. simpl.
    erewrite exec_ext; [reflexivity|].
    intros s' g'. simpl. destruct (_ <? _)%nat eqn:E; [|reflexivity].
    apply Nat.ltb_lt in E. apply IH; lia.
Qed.

(** So a repetition may be read with any bound that is large enough. *)
Lemma exec_rep_any_bound (r : regex) greedy k n s g :
  String.length s <= n ->
  exec (Rep greedy r) s g k
  = rep_loop greedy (fun s' g' k' => exec r s' g' k') k n s g.
Proof. intros Hn. simpl. apply rep_loop_fuel; lia. Qed.

End Matcher.

(** * The coordinate parser *)

Lemma concat_option_list {A B : Type} (f : A -> option B) (xs : list A) :
  concat (map (fun x => option_list (f x)) xs) = omap f xs.
Proof.
  induction xs as [|x xs IH]; simpl; [reflexivity|].
  rewrite IH. destruct (f x); reflexivity.
Qed.

(** One iteration of the loop over pairs appends the contribution of the
    candidate, and never raises: the guard on [len(parts)] protects both
    index accesses and the handler catches what [float] raises. *)
Lemma pair_step_spec (coords : Ring) (pair : string) :
  pair_step coords pair = Ok (coords ++ option_list (Spec.candidate pair)).
Proof.
  unfold pair_step, Spec.candidate. rewrite split_ws_strip.
  destruct (Str.split_ws pair) as [|t1 [|t2 rest]]; simpl;
    rewrite ?app_nil_r; try reflexivity.
  destruct (of_string_cases t1) as [[lon ->]| ->]; simpl;
    rewrite ?app_nil_r; try reflexivity.
  destruct (of_string_cases t2) as [[lat ->]| ->]; simpl;
    rewrite ?app_nil_r; reflexivity.
Qed.

Lemma parse_coords_spec (s : string) :
  parse_coords s = Ok (Spec.coordinates s).
Proof.
  unfold parse_coords, Spec.coordinates.
  rewrite (for_each_append pair_step (fun p => option_list (Spec.candidate p)))
    by apply pair_step_spec.
  simpl. rewrite concat_option_list. reflexivity.
Qed.

Lemma candidate_Some (pair : string) (c : Coordinate) :
  Spec.candidate pair = Some c <->
  exists t1 t2 rest lon lat,
    Str.split_ws pair = t1 :: t2 :: rest
    /\ PyFloat.of_string t1 = Ok lon
    /\ PyFloat.of_string t2 = Ok lat
    /\ c = [lon; lat].
Proof.
  unfold Spec.candidate. split.
  - destruct (Str.split_ws pair) as [|t1 [|t2 rest]]; try discriminate.
    destruct (PyFloat.of_string t1) as [lon|] eqn:E1; try discriminate.
    destruct (PyFloat.of_string t2) as [lat|] eqn:E2; try discriminate.
    intros [= <-]. exists t1, t2, rest, lon, lat. auto.
  - intros (t1 & t2 & rest & lon & lat & -> & -> & -> & ->). reflexivity.
Qed.

(** C4. For every ring string the coordinate parser returns, without
    raising, the contributions of its comma-separated candidates in order;
    a candidate contributes [[lon, lat]] exactly when it has at least two
    whitespace-separated tokens and the first two parse as floats; any
    other candidate leaves the coordinates read so far unchanged and the
    loop goes on. *)
Theorem coordinate_parser_candidates (ring_str : string) :
  parse_coords ring_str
  = Ok (omap Spec.candidate (Str.split_char "," ring_str))
  /\ (forall pair c,
        Spec.candidate pair = Some c <->
        exists t1 t2 rest lon lat,
          Str.split_ws pair = t1 :: t2 :: rest
          /\ PyFloat.of_string t1 = Ok lon
          /\ PyFloat.of_string t2 = Ok lat
          /\ c = [lon; lat])
  /\ (forall coords pair c,
        Spec.candidate pair = Some c ->
        pair_step coords pair = Ok (coords ++ [c]))
  /\ (forall coords pair,
        Spec.candidate pair = None -> pair_step coords pair = Ok coords).
Proof.
  split; [apply parse_coords_spec|].
  split; [apply candidate_Some|].
  split; intros coords pair; [intros c|]; intros E;
    rewrite pair_step_spec, E; simpl; rewrite ?app_nil_r; reflexivity.
Qed.

(** * Totality *)

Lemma ring_step_spec (rings : Polygon) (ring_str : string) :
  ring_step rings ring_str
  = Ok (let coords :=
          Spec.coordinates (Str.strip_chars "()" (Str.strip ring_str)) in
        if (3 <=? length coords)%nat then rings ++ [coords] else rings).
Proof. unfold ring_step. rewrite parse_coords_spec. reflexivity. Qed.

Lemma rings_total (parts : list string) (rings : Polygon) :
  exists rings', for_each ring_step parts rings = Ok rings'.
Proof.
  apply for_each_total. intros st x. rewrite ring_step_spec. eauto.
Qed.

Lemma polygon_step_total (polygons : list Polygon) (poly_content : string) :
  exists polygons', polygon_step polygons poly_content = Ok polygons'.
Proof.
  unfold polygon_step.
  destruct (rings_total (re_split ring_separator poly_content) [])
    as [rings ->]. simpl. eauto.
Qed.

Lemma structured_polygons_total (content : string) :
  exists polygons, structured_polygons content = Ok polygons.
Proof. apply for_each_total. apply polygon_step_total. Qed.

Lemma fallback_polygons_spec (wkt : string) :
  fallback_polygons wkt
  = Ok match re_search triple_pattern wkt with
       | Some coords_str =>
           let coords := Spec.coordinates coords_str in
           if (3 <=? length coords)%nat then [[coords]] else []
       | None => []
       end.
Proof.
  unfold fallback_polygons.
  destruct (re_search triple_pattern wkt); [|reflexivity].
  rewrite parse_coords_spec. reflexivity.
Qed.

Lemma retained_polygons_total (wkt content : string) :
  exists polygons, retained_polygons wkt content = Ok polygons.
Proof.
  unfold retained_polygons.
  destruct (structured_polygons_total content) as [[|p ps] ->]; simpl.
  - rewrite fallback_polygons_spec. eauto.
  - eauto.
Qed.

Lemma parse_total (v : pyval) : exists r, parse_wkt_multipolygon v = Ok r.
Proof.
  destruct v as [| |s]; simpl; eauto.
  destruct (Str.is_empty s); eauto.
  destruct (negb _); eauto.
  destruct (re_match outer_pattern (Str.strip s)) as [content|]; eauto.
  destruct (retained_polygons_total (Str.strip s) content) as [ps ->].
  simpl. eauto.
Qed.

(** C8. [parse_wkt_multipolygon] returns a value, and raises nothing, on
    every input: a missing marker ([None] or NaN), the empty string and any
    other string; the missing markers and the empty string give absent. *)
Theorem parse_wkt_multipolygon_total :
  (forall v, exists r, parse_wkt_multipolygon v = Ok r)
  /\ parse_wkt_multipolygon PyNone = Ok None
  /\ parse_wkt_multipolygon PyNaN = Ok None
  /\ parse_wkt_multipolygon (PyStr "") = Ok None.
Proof. split; [exact parse_total | repeat split]. Qed.

(** * The shape of a parsed result *)

Lemma coordinates_ok (s : string) :
  Forall Spec.coordinate_ok (Spec.coordinates s).
Proof.
  apply Forall_forall. intros c Hc.
  apply list_elem_of_omap in Hc as (pair & _ & E).
  apply candidate_Some in E as (t1 & t2 & rest & lon & lat & H).
  exists pair, t1, t2, rest, lon, lat. exact H.
Qed.

Lemma rings_ok (parts : list string) (rings rings' : Polygon) :
  Forall Spec.ring_ok rings ->
  for_each ring_step parts rings = Ok rings' ->
  Forall Spec.ring_ok rings'.
Proof.
  apply for_each_invariant. clear. intros rings ring_str rings' Hok.
  rewrite ring_step_spec. cbv zeta.
  destruct (3 <=? length _)%nat eqn:E; intros [= <-]; [|exact Hok].
  apply Forall_app. split; [exact Hok|].
  apply Forall_singleton. split.
  - apply Nat.leb_le in E. exact E.
  - apply coordinates_ok.
Qed.

Lemma polygons_ok (groups : list string) (polygons polygons' : list Polygon) :
  Forall Spec.polygon_ok polygons ->
  for_each polygon_step groups polygons = Ok polygons' ->
  Forall Spec.polygon_ok polygons'.
Proof.
  apply for_each_invariant. clear. intros polygons poly_content polygons' Hok.
  unfold polygon_step.
  destruct (for_each ring_step _ []) as [rings|e] eqn:E; simpl; [|discriminate].
  apply rings_ok in E; [|constructor].
  destruct rings as [|r rings]; intros [= <-]; [exact Hok|].
  apply Forall_app. split; [exact Hok|].
  apply Forall_singleton. split; [discriminate | exact E].
Qed.

Lemma retained_polygons_ok (wkt content : string) (polygons : list Polygon) :
  retained_polygons wkt content = Ok polygons ->
  Forall Spec.polygon_ok polygons.
Proof.
  unfold retained_polygons, structured_polygons.
  destruct (for_each polygon_step _ []) as [ps|e] eqn:E; simpl; [|discriminate].
  apply polygons_ok in E; [|constructor].
  destruct ps as [|p ps]; [|intros [= <-]; exact E].
  rewrite fallback_polygons_spec.
  destruct (re_search triple_pattern wkt) as [cs|]; cbv zeta.
  - destruct (3 <=? length _)%nat eqn:E3; intros [= <-]; [|constructor].
    apply Forall_singleton. split; [discriminate|].
    apply Forall_singleton. split.
    + apply Nat.leb_le in E3. exact E3.
    + apply coordinates_ok.
  - intros [= <-]. constructor.
Qed.

(** ** Where the coordinates come from *)

(** An invariant may use that the element of the step is in the list. *)
Lemma for_each_invariant_in {S A : Type} (body : S -> A -> result S)
    (P : S -> Prop) (xs : list A) :
  (forall st x st', x ∈ xs -> P st -> body st x = Ok st' -> P st') ->
  forall st st', P st -> for_each body xs st = Ok st' -> P st'.
Proof.
  induction xs as [|x xs IH]; intros Hbody st st' HP; simpl.
  - intros [= <-]. exact HP.
  - destruct (body st x) as [st1|e] eqn:E; simpl; [|discriminate].
    apply IH.
    + intros st0 y st0' Hy. apply Hbody. right. exact Hy.
    + apply (Hbody st x st1); [left | exact HP | exact E].
Qed.

(** The coordinates of a ring string are read pair by pair, in order. *)
Lemma coordinates_read_from (ring_str : string) :
  Spec.read_from (Spec.coordinates ring_str) ring_str.
Proof.
  unfold Spec.read_from, Spec.coordinates.
  induction (Str.split_char "," ring_str) as [|pair l (kept & Hsub & Hall)];
    simpl.
  - exists []. split; constructor.
  - destruct (Spec.candidate pair) as [c|] eqn:E.
    + exists (pair :: kept). split; [constructor; exact Hsub|].
      constructor; [|exact Hall].
      apply candidate_Some in E as (t1 & t2 & rest & lon & lat & H).
      exists t1, t2, rest, lon, lat. exact H.
    + exists kept. split; [constructor; exact Hsub | exact Hall].
Qed.

Lemma rings_sources (parts : list string) (rings rings' : Polygon) :
  Forall (fun ring =>
            exists part,
              part ∈ parts
              /\ ring = Spec.coordinates
                          (Str.strip_chars "()" (Str.strip part))) rings ->
  for_each ring_step parts rings = Ok rings' ->
  Forall (fun ring =>
            exists part,
              part ∈ parts
              /\ ring = Spec.coordinates
                          (Str.strip_chars "()" (Str.strip part))) rings'.
Proof.
  apply for_each_invariant_in. intros st part st' Hin Hst.
  rewrite ring_step_spec. cbv zeta.
  destruct (3 <=? length _)%nat; intros [= <-]; [|exact Hst].
  apply Forall_app. split; [exact Hst|].
  apply Forall_singleton. exists part. auto.
Qed.

Lemma polygons_sources (groups : list string)
    (polygons polygons' : list Polygon) :
  Forall (Forall (fun ring =>
            exists group part,
              group ∈ groups
              /\ part ∈ re_split ring_separator group
              /\ ring = Spec.coordinates
                          (Str.strip_chars "()" (Str.strip part))))
         polygons ->
  for_each polygon_step groups polygons = Ok polygons' ->
  Forall (Forall (fun ring =>
            exists group part,
              group ∈ groups
              /\ part ∈ re_split ring_separator group
              /\ ring = Spec.coordinates
                          (Str.strip_chars "()" (Str.strip part))))
         polygons'.
Proof.
  apply for_each_invariant_in. intros st group st' Hin Hst.
  unfold polygon_step.
  destruct (for_each ring_step _ []) as [rings|e] eqn:E; simpl;
    [|discriminate].
  apply rings_sources in E; [|constructor].
  destruct rings as [|r rings]; intros [= <-]; [exact Hst|].
  apply Forall_app. split; [exact Hst|].
  apply Forall_singleton.
  eapply Forall_impl; [exact E|]. intros ring (part & Hpart & ->).
  exists group, part. auto.
Qed.

(** Every retained ring is the coordinates of a ring string of the text. *)
Lemma retained_polygons_sources (s content : string)
    (polygons : list Polygon) :
  retained_polygons (Str.strip s) content = Ok polygons ->
  Forall (Forall (fun ring =>
            exists ring_str,
              Spec.ring_source s content ring_str
              /\ ring = Spec.coordinates ring_str)) polygons.
Proof.
  unfold retained_polygons, structured_polygons.
  destruct (for_each polygon_step _ []) as [ps|e] eqn:E; simpl;
    [|discriminate].
  apply polygons_sources in E; [|constructor].
  destruct ps as [|p ps].
  - rewrite fallback_polygons_spec.
    destruct (re_search triple_pattern (Str.strip s)) as [cs|] eqn:Es;
      cbv zeta.
    + destruct (3 <=? length _)%nat; intros [= <-]; [|constructor].
      apply Forall_singleton, Forall_singleton.
      exists cs. split; [|reflexivity].
      right. exact Es.
    + intros [= <-]. constructor.
  - intros [= <-].
    eapply Forall_impl; [exact E|]. intros polygon Hp.
    eapply Forall_impl; [exact Hp|].
    intros ring (group & part & Hg & Hpart & ->).
    eexists. split; [|reflexivity]. left. exists group, part. auto.
Qed.

(** C10. A non-absent result of [parse_wkt_multipolygon] is a non-empty
    list of polygons; every polygon has at least one ring and every ring at
    least 3 coordinates, each a list of two floats.  Every ring is read
    from a ring string of the text that was parsed: its coordinates are, in
    order, those of comma-separated pairs of that ring string, each the
    list [[lon, lat]] of the floats of the first and the second token of
    its own pair, in this order.  Tokens after the second are ignored: a
    pair with more tokens is read as the pair made of its first two. *)
Theorem parsed_polygons_well_formed :
  (forall v polygons,
     parse_wkt_multipolygon v = Ok (Some polygons) ->
     polygons <> []
     /\ Forall (fun polygon =>
          polygon <> []
          /\ Forall (fun ring =>
               3 <= length ring
               /\ Forall (fun c => length c = 2) ring
               /\ exists s content ring_str,
                    v = PyStr s
                    /\ Spec.accepted s content
                    /\ Spec.ring_source s content ring_str
                    /\ ring = Spec.coordinates ring_str
                    /\ Spec.read_from ring ring_str) polygon)
          polygons)
  /\ (forall coords pair pair' t1 t2 rest,
        Str.split_ws pair = t1 :: t2 :: rest ->
        Str.split_ws pair' = [t1; t2] ->
        pair_step coords pair = pair_step coords pair').
Proof.
  split.
  - intros [| |s] polygons; simpl; try discriminate.
    destruct (Str.is_empty s) eqn:He; [discriminate|].
    destruct (negb _) eqn:Hs; [discriminate|].
    apply negb_false_iff in Hs.
    destruct (re_match outer_pattern (Str.strip s)) as [content|] eqn:Hm;
      [|discriminate].
    destruct (retained_polygons (Str.strip s) content) as [ps|e] eqn:E;
      simpl; [|discriminate].
    assert (Hok := retained_polygons_ok _ _ _ E).
    assert (Hsrc := retained_polygons_sources _ _ _ E).
    destruct ps as [|p ps]; intros [= <-]. split; [discriminate|].
    rewrite Forall_forall in Hok, Hsrc. apply Forall_forall.
    intros polygon Hin. destruct (Hok polygon Hin) as [Hne Hrings].
    specialize (Hsrc polygon Hin).
    split; [exact Hne|].
    rewrite Forall_forall in Hrings, Hsrc. apply Forall_forall.
    intros ring Hring. destruct (Hrings ring Hring) as [Hlen Hcs].
    destruct (Hsrc ring Hring) as (ring_str & Hsource & Hring_eq).
    split; [exact Hlen|]. split.
    + eapply Forall_impl; [exact Hcs|]. intros c Hc.
      destruct Hc as (? & ? & ? & ? & ? & ? & _ & _ & _ & ->). reflexivity.
    + exists s, content, ring_str. split; [reflexivity|].
      split; [repeat split; assumption|]. split; [exact Hsource|].
      split; [exact Hring_eq|]. rewrite Hring_eq.
      apply coordinates_read_from.
  - intros coords pair pair' t1 t2 rest E E'.
    rewrite !pair_step_spec. unfold Spec.candidate. rewrite E, E'.
    reflexivity.
Qed.

Lemma parsed_polygons_well_formed_witness :
  parse_wkt_multipolygon (PyStr "MULTIPOLYGON (((1 2 7, 3 4 7, 5 6 7)))")
  = Ok (Some [[[[Spec.F 1; Spec.F 2]; [Spec.F 3; Spec.F 4];
                [Spec.F 5; Spec.F 6]]]])
  /\ [[[[Spec.F 1; Spec.F 2]; [Spec.F 3; Spec.F 4];
        [Spec.F 5; Spec.F 6]]]] <> []
  /\ Forall (fun polygon =>
        polygon <> []
        /\ Forall (fun ring =>
             3 <= length ring
             /\ Forall (fun c => length c = 2) ring
             /\ exists s content ring_str,
                  PyStr "MULTIPOLYGON (((1 2 7, 3 4 7, 5 6 7)))" = PyStr s
                  /\ Spec.accepted s content
                  /\ Spec.ring_source s content ring_str
                  /\ ring = Spec.coordinates ring_str
                  /\ Spec.read_from ring ring_str) polygon)
      [[[[Spec.F 1; Spec.F 2]; [Spec.F 3; Spec.F 4];
         [Spec.F 5; Spec.F 6]]]]
  /\ pair_step [] "3 4 7" = pair_step [] "3 4".
Proof.
  assert (H : parse_wkt_multipolygon
                (PyStr "MULTIPOLYGON (((1 2 7, 3 4 7, 5 6 7)))")
              = Ok (Some [[[[Spec.F 1; Spec.F 2]; [Spec.F 3; Spec.F 4];
                            [Spec.F 5; Spec.F 6]]]]))
    by (vm_compute; reflexivity).
  split; [exact H|]. split; [|split].
  - exact (proj1 (proj1 parsed_polygons_well_formed _ _ H)).
  - exact (proj2 (proj1 parsed_polygons_well_formed _ _ H)).
  - apply (proj2 parsed_polygons_well_formed [] "3 4 7" "3 4" "3" "4" ["7"]);
      vm_compute; reflexivity.
Defined.

(** * Geometry selection and feature assembly *)

Lemma make_geometry_spec (p : Polygon) (ps : list Polygon) :
  make_geometry (p :: ps) = Ok (match ps with
                                | [] => GPolygon p
                                | _ :: _ => GMultiPolygon (p :: ps)
                                end).
Proof. destruct ps as [|q [|r ps]]; reflexivity. Qed.

Lemma build_geometry_total (v : pyval) :
  exists g, build_geometry v = Ok g.
Proof.
  unfold build_geometry.
  destruct (parse_total v) as [[[|p ps]|] ->];
    simpl; eauto.
  rewrite make_geometry_spec. simpl. eauto.
Qed.

(** One iteration of the loop over rows appends the feature of the row, if
    it has one, and never raises. *)
Lemma row_step_spec (features : list Feature) (row : Row) :
  row_step features row
  = Ok (features ++ option_list (Spec.feature_of_row row)).
Proof.
  unfold row_step, Spec.feature_of_row, build_geometry.
  destruct (parse_total (the_geom row)) as [[[|p ps]|] ->]; simpl;
    rewrite ?app_nil_r; try reflexivity.
  rewrite make_geometry_spec. reflexivity.
Qed.

Lemma create_nta_geojson_full_spec (nta_geo : list Row) :
  create_nta_geojson_full nta_geo
  = Ok {| features := omap Spec.feature_of_row nta_geo |}.
Proof.
  unfold create_nta_geojson_full.
  rewrite (for_each_append row_step
             (fun row => option_list (Spec.feature_of_row row)))
    by apply row_step_spec.
  simpl. rewrite concat_option_list. reflexivity.
Qed.

(** The elements kept by [omap], in their order, with what they became. *)
Lemma omap_kept {A B : Type} (f : A -> option B) (xs : list A) :
  exists kept,
    kept `sublist_of` xs /\ Forall2 (fun y x => f x = Some y) (omap f xs) kept.
Proof.
  induction xs as [|x xs (kept & Hsub & Hall)]; simpl.
  - exists []. split; constructor.
  - destruct (f x) as [y|] eqn:E.
    + exists (x :: kept). split; [constructor; exact Hsub|].
      constructor; assumption.
    + exists kept. split; [constructor; exact Hsub | exact Hall].
Qed.

(** C9. For every dataset the collection is built without raising; it has
    at most as many features as there are rows; and its features are, in
    order, the features of a subsequence of the rows: rows are skipped,
    never reordered. *)
Theorem feature_collection_order (nta_geo : list Row) :
  exists fc kept,
    create_nta_geojson_full nta_geo = Ok fc
    /\ length (features fc) <= length nta_geo
    /\ kept `sublist_of` nta_geo
    /\ Forall2 (fun feature row =>
                  Spec.feature_of_row row = Some feature
                  /\ id feature = NTAName row)
               (features fc) kept.
Proof.
  destruct (omap_kept Spec.feature_of_row nta_geo) as (kept & Hsub & Hall).
  exists {| features := omap Spec.feature_of_row nta_geo |}, kept.
  split; [apply create_nta_geojson_full_spec|]. simpl.
  split; [|split; [exact Hsub|]].
  - apply Forall2_length in Hall. rewrite Hall.
    apply sublist_length, Hsub.
  - eapply Forall2_impl; [exact Hall|]. intros feature row E.
    split; [exact E|]. unfold Spec.feature_of_row in E.
    destruct (build_geometry (the_geom row)) as [[g|]|]; try discriminate.
    injection E as <-. reflexivity.
Qed.

(** * Rejected input *)

Lemma not_multipolygon_absent (s : string) :
  Str.startswith (Str.strip s) "MULTIPOLYGON" = false ->
  parse_wkt_multipolygon (PyStr s) = Ok None.
Proof.
  intros H. simpl. rewrite H. destruct (Str.is_empty s); reflexivity.
Qed.

(** C6. A string that, once stripped, does not start with [MULTIPOLYGON]
    (compared character by character, so case matters) has an absent
    geometry, and a row holding it adds no feature: the collection is the
    one of the dataset without that row. *)
Theorem not_multipolygon_no_feature (s : string) :
  Str.startswith (Str.strip s) "MULTIPOLYGON" = false ->
  parse_wkt_multipolygon (PyStr s) = Ok None
  /\ build_geometry (PyStr s) = Ok None
  /\ (forall row features,
        the_geom row = PyStr s -> row_step features row = Ok features)
  /\ (forall row before after,
        the_geom row = PyStr s ->
        create_nta_geojson_full (before ++ row :: after)
        = create_nta_geojson_full (before ++ after)).
Proof.
  intros H. pose proof (not_multipolygon_absent s H) as Hp.
  assert (Hf : forall row, the_geom row = PyStr s ->
                           Spec.feature_of_row row = None).
  { intros row E. unfold Spec.feature_of_row, build_geometry.
    rewrite E, Hp. reflexivity. }
  split; [exact Hp|]. split; [unfold build_geometry; rewrite Hp; reflexivity|].
  split.
  - intros row features E. rewrite row_step_spec, (Hf row E). simpl.
    rewrite app_nil_r. reflexivity.
  - intros row before after E. rewrite !create_nta_geojson_full_spec.
    rewrite !omap_app. simpl. rewrite (Hf row E). reflexivity.
Qed.

Lemma not_multipolygon_no_feature_witness :
  Str.startswith (Str.strip "POLYGON ((0 0,1 0,1 1,0 0))") "MULTIPOLYGON"
  = false
  /\ parse_wkt_multipolygon (PyStr "POLYGON ((0 0,1 0,1 1,0 0))") = Ok None
  /\ build_geometry (PyStr "multipolygon (((0 0,1 0,1 1,0 0)))") = Ok None.
Proof.
  split; [reflexivity|]. split.
  - apply (not_multipolygon_no_feature "POLYGON ((0 0,1 0,1 1,0 0))").
    reflexivity.
  - apply (not_multipolygon_no_feature "multipolygon (((0 0,1 0,1 1,0 0)))").
    reflexivity.
Defined.

(** * The two parsing paths *)

Lemma parse_accepted (s content : string) :
  Spec.accepted s content ->
  parse_wkt_multipolygon (PyStr s)
  = (polygons ← retained_polygons (Str.strip s) content;
     Ok (match polygons with
         | [] => None
         | _ :: _ => Some polygons
         end)).
Proof.
  intros (He & Hs & Hm). simpl. rewrite He, Hs, Hm. reflexivity.
Qed.

(** When the structured path retains no polygon the result is the outcome
    of the single-polygon path on the whole string. *)
Lemma parse_fallback (s content : string) :
  Spec.accepted s content ->
  structured_polygons content = Ok [] ->
  parse_wkt_multipolygon (PyStr s) = Ok (Spec.fallback_outcome (Str.strip s)).
Proof.
  intros Ha Hs. rewrite (parse_accepted s content Ha).
  unfold retained_polygons. rewrite Hs. simpl.
  rewrite fallback_polygons_spec. unfold Spec.fallback_outcome.
  destruct (re_search triple_pattern (Str.strip s)); [|reflexivity].
  cbv zeta. destruct (3 <=? length _)%nat; reflexivity.
Qed.

(** C7. When the structured match finds no polygon group, the parser
    searches the whole string for the first triple-parenthesis block and
    reads its contents with the coordinate parser as one ring; the result
    is one polygon made of that one ring when the ring is retained (at
    least 3 coordinates), and absent when there is no such block or the
    ring is not retained. *)
Theorem fallback_single_polygon (s content : string) :
  Spec.accepted s content ->
  re_findall polygon_pattern content = [] ->
  match re_search triple_pattern (Str.strip s) with
  | Some coords_str =>
      exists ring,
        parse_coords coords_str = Ok ring
        /\ parse_wkt_multipolygon (PyStr s)
           = Ok (if (3 <=? length ring)%nat then Some [[ring]] else None)
  | None => parse_wkt_multipolygon (PyStr s) = Ok None
  end.
Proof.
  intros Ha Hf.
  assert (Hs : structured_polygons content = Ok [])
    by (unfold structured_polygons; rewrite Hf; reflexivity).
  rewrite (parse_fallback s content Ha Hs). unfold Spec.fallback_outcome.
  destruct (re_search triple_pattern (Str.strip s)) as [cs|]; [|reflexivity].
  exists (Spec.coordinates cs). split; [apply parse_coords_spec | reflexivity].
Qed.

Lemma fallback_single_polygon_witness :
  Spec.accepted "MULTIPOLYGON (((0 0, 1 0, 1 1),(5 5)))" "((0 0, 1 0, 1 1),(5 5))"
  /\ re_findall polygon_pattern "((0 0, 1 0, 1 1),(5 5))" = []
  /\ re_search triple_pattern "MULTIPOLYGON (((0 0, 1 0, 1 1),(5 5)))"
     = Some "0 0, 1 0, 1 1),(5 5"
  /\ exists ring,
       parse_coords "0 0, 1 0, 1 1),(5 5" = Ok ring
       /\ parse_wkt_multipolygon (PyStr "MULTIPOLYGON (((0 0, 1 0, 1 1),(5 5)))")
          = Ok (if (3 <=? length ring)%nat then Some [[ring]] else None).
Proof.
  assert (Ha : Spec.accepted "MULTIPOLYGON (((0 0, 1 0, 1 1),(5 5)))"
                             "((0 0, 1 0, 1 1),(5 5))")
    by (repeat split; vm_compute; reflexivity).
  assert (Hf : re_findall polygon_pattern "((0 0, 1 0, 1 1),(5 5))" = [])
    by (vm_compute; reflexivity).
  split; [exact Ha|]. split; [exact Hf|]. split; [vm_compute; reflexivity|].
  exact (fallback_single_polygon _ _ Ha Hf).
Defined.

(** C2. The geometry follows the number of polygons left at line 410,
    after both parsing paths and the ring filter: none gives absent, one
    gives a Polygon holding that polygon, two or more give a MultiPolygon
    holding all of them in the order found.  A string turned away before
    extraction has an absent geometry.  The two-polygon example gives a
    MultiPolygon of 2 polygons of 1 ring each, in the order written. *)
Theorem geometry_by_polygon_count :
  (forall s content polygons,
     Spec.accepted s content ->
     retained_polygons (Str.strip s) content = Ok polygons ->
     build_geometry (PyStr s)
     = Ok match polygons with
          | [] => None
          | [p] => Some (GPolygon p)
          | _ :: _ :: _ => Some (GMultiPolygon polygons)
          end)
  /\ (forall v, parse_wkt_multipolygon v = Ok None ->
                build_geometry v = Ok None)
  /\ build_geometry
       (PyStr "MULTIPOLYGON (((0 0,1 0,1 1,0 0)),((5 5,6 5,6 6,5 5)))")
     = Ok (Some (GMultiPolygon
            [ [ [ [Spec.F 0; Spec.F 0]; [Spec.F 1; Spec.F 0];
                  [Spec.F 1; Spec.F 1]; [Spec.F 0; Spec.F 0] ] ];
              [ [ [Spec.F 5; Spec.F 5]; [Spec.F 6; Spec.F 5];
                  [Spec.F 6; Spec.F 6]; [Spec.F 5; Spec.F 5] ] ] ])).
Proof.
  split; [|split].
  - intros s content polygons Ha Hr. unfold build_geometry.
    rewrite (parse_accepted s content Ha), Hr. simpl.
    destruct polygons as [|p ps]; [reflexivity|]. simpl.
    rewrite make_geometry_spec. destruct ps; reflexivity.
  - intros v H. unfold build_geometry. rewrite H. reflexivity.
  - vm_compute. reflexivity.
Qed.

Lemma geometry_by_polygon_count_witness :
  Spec.accepted "MULTIPOLYGON (((0 0,1 0,1 1,0 0)))" "((0 0,1 0,1 1,0 0))"
  /\ retained_polygons "MULTIPOLYGON (((0 0,1 0,1 1,0 0)))" "((0 0,1 0,1 1,0 0))"
     = Ok [ [ [ [Spec.F 0; Spec.F 0]; [Spec.F 1; Spec.F 0];
                [Spec.F 1; Spec.F 1]; [Spec.F 0; Spec.F 0] ] ] ]
  /\ build_geometry (PyStr "MULTIPOLYGON (((0 0,1 0,1 1,0 0)))")
     = Ok (Some (GPolygon
            [ [ [Spec.F 0; Spec.F 0]; [Spec.F 1; Spec.F 0];
                [Spec.F 1; Spec.F 1]; [Spec.F 0; Spec.F 0] ] ])).
Proof.
  assert (Ha : Spec.accepted "MULTIPOLYGON (((0 0,1 0,1 1,0 0)))"
                             "((0 0,1 0,1 1,0 0))")
    by (repeat split; vm_compute; reflexivity).
  split; [exact Ha|]. split; [vm_compute; reflexivity|].
  apply (proj1 geometry_by_polygon_count
           "MULTIPOLYGON (((0 0,1 0,1 1,0 0)))" "((0 0,1 0,1 1,0 0))"
           [ [ [ [Spec.F 0; Spec.F 0]; [Spec.F 1; Spec.F 0];
                 [Spec.F 1; Spec.F 1]; [Spec.F 0; Spec.F 0] ] ] ] Ha).
  vm_compute. reflexivity.
Defined.

(** C3. The one-ring example gives a Polygon whose coordinates are the
    five pairs of the string, values and order kept. *)
Theorem single_ring_example :
  parse_wkt_multipolygon (PyStr "MULTIPOLYGON (((0 0, 1 0, 1 1, 0 1, 0 0)))")
  = Ok (Some [ [ [ [Spec.F 0; Spec.F 0]; [Spec.F 1; Spec.F 0];
                   [Spec.F 1; Spec.F 1]; [Spec.F 0; Spec.F 1];
                   [Spec.F 0; Spec.F 0] ] ] ])
  /\ build_geometry (PyStr "MULTIPOLYGON (((0 0, 1 0, 1 1, 0 1, 0 0)))")
     = Ok (Some (GPolygon
            [ [ [Spec.F 0; Spec.F 0]; [Spec.F 1; Spec.F 0];
                [Spec.F 1; Spec.F 1]; [Spec.F 0; Spec.F 1];
                [Spec.F 0; Spec.F 0] ] ])).
Proof. split; vm_compute; reflexivity. Qed.

(** C1. On the example with a hole the polygon pattern finds no group: it
    cannot pass the [),(] between two rings.  The single-polygon path then
    reads everything between the outer parentheses as one ring and loses
    the two pairs next to a parenthesis, so the result is one ring of 8
    coordinates, not an exterior ring and a hole of 5 each. *)
Theorem hole_example_single_ring :
  re_match outer_pattern
    "MULTIPOLYGON (((0 0, 10 0, 10 10, 0 10, 0 0),(2 2, 4 2, 4 4, 2 4, 2 2)))"
  = Some "((0 0, 10 0, 10 10, 0 10, 0 0),(2 2, 4 2, 4 4, 2 4, 2 2))"
  /\ re_findall polygon_pattern
       "((0 0, 10 0, 10 10, 0 10, 0 0),(2 2, 4 2, 4 4, 2 4, 2 2))" = []
  /\ build_geometry (PyStr
       "MULTIPOLYGON (((0 0, 10 0, 10 10, 0 10, 0 0),(2 2, 4 2, 4 4, 2 4, 2 2)))")
     = Ok (Some (GPolygon
            [ [ [Spec.F 0; Spec.F 0]; [Spec.F 10; Spec.F 0];
                [Spec.F 10; Spec.F 10]; [Spec.F 0; Spec.F 10];
                [Spec.F 4; Spec.F 2]; [Spec.F 4; Spec.F 4];
                [Spec.F 2; Spec.F 4]; [Spec.F 2; Spec.F 2] ] ]))
  /\ build_geometry (PyStr
       "MULTIPOLYGON (((0 0, 10 0, 10 10, 0 10, 0 0),(2 2, 4 2, 4 4, 2 4, 2 2)))")
     <> Ok (Some (GPolygon
            [ [ [Spec.F 0; Spec.F 0]; [Spec.F 10; Spec.F 0];
                [Spec.F 10; Spec.F 10]; [Spec.F 0; Spec.F 10];
                [Spec.F 0; Spec.F 0] ];
              [ [Spec.F 2; Spec.F 2]; [Spec.F 4; Spec.F 2];
                [Spec.F 4; Spec.F 4]; [Spec.F 2; Spec.F 4];
                [Spec.F 2; Spec.F 2] ] ])).
Proof.
  split; [vm_compute; reflexivity|]. split; [vm_compute; reflexivity|].
  split; [vm_compute; reflexivity|]. vm_compute. discriminate.
Qed.

(** * Degenerate rings *)

Lemma degenerate_ring_step (rings : Polygon) (ring_str : string) :
  Spec.degenerate ring_str -> ring_step rings ring_str = Ok rings.
Proof.
  unfold Spec.degenerate. intros H. rewrite ring_step_spec. cbv zeta.
  destruct (3 <=? length _)%nat eqn:E; [|reflexivity].
  apply Nat.leb_le in E. lia.
Qed.

Lemma degenerate_polygon_step (polygons : list Polygon)
    (poly_content ring_str : string) :
  re_split ring_separator poly_content = [ring_str] ->
  Spec.degenerate ring_str ->
  polygon_step polygons poly_content = Ok polygons.
Proof.
  intros Hs Hd. unfold polygon_step. rewrite Hs. simpl.
  rewrite (degenerate_ring_step [] ring_str Hd). reflexivity.
Qed.

(** The claim C5 as it is worded fails: in the string below the only
    polygon group the pattern finds is [((3 3))], whose only ring has one
    coordinate; the group is dropped, and the single-polygon path then
    reads three coordinates between the outer parentheses, so the geometry
    is present. *)
Lemma degenerate_rule_as_stated_fails : ~ Spec.degenerate_rule_as_stated.
Proof.
  intros (_ & _ & H).
  specialize (H "MULTIPOLYGON (((0 0, 1 1, 2 2 ((3 3)) )))"
                "((0 0, 1 1, 2 2 ((3 3)) ))" "3 3" "3 3").
  assert (E : parse_wkt_multipolygon
                (PyStr "MULTIPOLYGON (((0 0, 1 1, 2 2 ((3 3)) )))")
              = Ok (Some [[[[Spec.F 0; Spec.F 0]; [Spec.F 1; Spec.F 1];
                            [Spec.F 2; Spec.F 2]]]]))
    by (vm_compute; reflexivity).
  rewrite E in H. discriminate H.
  - repeat split; vm_compute; reflexivity.
  - vm_compute. reflexivity.
  - vm_compute. reflexivity.
  - vm_compute. lia.
Qed.

(** C5, amended. A ring with fewer than 3 coordinates is dropped; a
    polygon group whose only ring is dropped is dropped; when that group
    was the only one of the geometry, the result is the outcome of the
    single-polygon path on the whole string, and the row adds no feature
    when that outcome is absent (no triple-parenthesis block, or fewer
    than 3 coordinates in it), as for a lone ring of two pairs.  Nothing
    is raised on the way. *)
Theorem degenerate_ring_rule :
  Spec.degenerate_ring_dropped
  /\ Spec.degenerate_polygon_dropped
  /\ (forall s content poly_content ring_str,
        Spec.accepted s content ->
        re_findall polygon_pattern content = [poly_content] ->
        re_split ring_separator poly_content = [ring_str] ->
        Spec.degenerate ring_str ->
        parse_wkt_multipolygon (PyStr s)
        = Ok (Spec.fallback_outcome (Str.strip s))
        /\ (Spec.fallback_outcome (Str.strip s) = None ->
            forall row features,
              the_geom row = PyStr s -> row_step features row = Ok features))
  /\ (forall v, exists r, parse_wkt_multipolygon v = Ok r)
  /\ Spec.degenerate "0 0, 1 1"
  /\ parse_wkt_multipolygon (PyStr "MULTIPOLYGON (((0 0, 1 1)))") = Ok None
  /\ (forall name boro code,
        create_nta_geojson_full
          [mkRow name boro code (PyStr "MULTIPOLYGON (((0 0, 1 1)))")]
        = Ok {| features := [] |}).
Proof.
  split; [exact degenerate_ring_step|].
  split; [exact degenerate_polygon_step|].
  split; [|split; [exact parse_total|]].
  - intros s content poly_content ring_str Ha Hf Hs Hd.
    assert (Hp : parse_wkt_multipolygon (PyStr s)
                 = Ok (Spec.fallback_outcome (Str.strip s))).
    { apply (parse_fallback s content Ha).
      unfold structured_polygons. rewrite Hf. simpl.
      rewrite (degenerate_polygon_step [] poly_content ring_str Hs Hd).
      reflexivity. }
    split; [exact Hp|]. intros Hn row features E.
    rewrite row_step_spec. unfold Spec.feature_of_row, build_geometry.
    rewrite E, Hp, Hn. simpl. rewrite app_nil_r. reflexivity.
  - split; [vm_compute; lia|]. split; [vm_compute; reflexivity|].
    intros name boro code. vm_compute. reflexivity.
Qed.

Lemma degenerate_ring_rule_witness :
  Spec.accepted "MULTIPOLYGON (((0 0, 1 1)))" "((0 0, 1 1))"
  /\ re_findall polygon_pattern "((0 0, 1 1))" = ["0 0, 1 1"]
  /\ re_split ring_separator "0 0, 1 1" = ["0 0, 1 1"]
  /\ Spec.degenerate "0 0, 1 1"
  /\ parse_wkt_multipolygon (PyStr "MULTIPOLYGON (((0 0, 1 1)))")
     = Ok (Spec.fallback_outcome (Str.strip "MULTIPOLYGON (((0 0, 1 1)))")).
Proof.
  assert (Ha : Spec.accepted "MULTIPOLYGON (((0 0, 1 1)))" "((0 0, 1 1))")
    by (repeat split; vm_compute; reflexivity).
  assert (Hf : re_findall polygon_pattern "((0 0, 1 1))" = ["0 0, 1 1"])
    by (vm_compute; reflexivity).
  assert (Hs : re_split ring_separator "0 0, 1 1" = ["0 0, 1 1"])
    by (vm_compute; reflexivity).
  assert (Hd : Spec.degenerate "0 0, 1 1") by (vm_compute; lia).
  repeat (split; [assumption|]).
  exact (proj1 (proj1 (proj2 (proj2 degenerate_ring_rule))
                  _ _ _ _ Ha Hf Hs Hd)).
Defined.

(** * Further properties of the parser and the assembler *)

Lemma parse_Some_ok (v : pyval) (polygons : list Polygon) :
  parse_wkt_multipolygon v = Ok (Some polygons) ->
  polygons <> [] /\ Forall Spec.polygon_ok polygons.
Proof.
  destruct v as [| |s]; simpl; try discriminate.
  destruct (Str.is_empty s); [discriminate|].
  destruct (negb _); [discriminate|].
  destruct (re_match outer_pattern (Str.strip s)) as [content|];
    [|discriminate].
  destruct (retained_polygons (Str.strip s) content) as [ps|e] eqn:E;
    simpl; [|discriminate].
  apply retained_polygons_ok in E.
  destruct ps as [|p ps]; intros [= <-]. split; [discriminate | exact E].
Qed.

(** X1. A geometry that is built is well formed: a Polygon has at least one
    ring and a MultiPolygon at least two polygons, each with at least one
    ring; every ring has at least 3 coordinates. *)
Theorem geometry_well_formed (v : pyval) (g : Geometry) :
  build_geometry v = Ok (Some g) ->
  match g with
  | GPolygon p => Spec.polygon_ok p
  | GMultiPolygon ps => 2 <= length ps /\ Forall Spec.polygon_ok ps
  end.
Proof.
  unfold build_geometry.
  destruct (parse_wkt_multipolygon v) as [[ps|]|e] eqn:E; simpl;
    try discriminate.
  apply parse_Some_ok in E as [Hne Hok].
  destruct ps as [|p ps]; [contradiction|].
  rewrite make_geometry_spec. simpl.
  destruct ps as [|q ps]; intros [= <-].
  - apply Forall_inv in Hok. exact Hok.
  - split; [simpl; lia | exact Hok].
Qed.

Lemma geometry_well_formed_witness :
  build_geometry (PyStr "MULTIPOLYGON (((0 0,1 0,1 1)),((5 5,6 5,6 6)))")
  = Ok (Some (GMultiPolygon
         [ [ [ [Spec.F 0; Spec.F 0]; [Spec.F 1; Spec.F 0];
               [Spec.F 1; Spec.F 1] ] ];
           [ [ [Spec.F 5; Spec.F 5]; [Spec.F 6; Spec.F 5];
               [Spec.F 6; Spec.F 6] ] ] ]))
  /\ 2 <= 2.
Proof.
  assert (H : build_geometry
                (PyStr "MULTIPOLYGON (((0 0,1 0,1 1)),((5 5,6 5,6 6)))")
              = Ok (Some (GMultiPolygon
                     [ [ [ [Spec.F 0; Spec.F 0]; [Spec.F 1; Spec.F 0];
                           [Spec.F 1; Spec.F 1] ] ];
                       [ [ [Spec.F 5; Spec.F 5]; [Spec.F 6; Spec.F 5];
                           [Spec.F 6; Spec.F 6] ] ] ])))
    by (vm_compute; reflexivity).
  split; [exact H|].
  exact (proj1 (geometry_well_formed _ _ H)).
Defined.

(** ** Whitespace around the text *)

Lemma lstrip_by_head (p : ascii -> bool) (c : ascii) (s : string) :
  p c = false -> Str.lstrip_by p (String c s) = String c s.
Proof. intros H. simpl. rewrite H. reflexivity. Qed.

Lemma lstrip_by_cases (p : ascii -> bool) (s : string) :
  Str.lstrip_by p s = EmptyString
  \/ exists c s', Str.lstrip_by p s = String c s' /\ p c = false.
Proof.
  induction s as [|c s IH]; simpl; [left; reflexivity|].
  destruct (p c) eqn:E; [exact IH|]. right. eauto.
Qed.

Lemma rstrip_by_head (p : ascii -> bool) (c : ascii) (s : string) :
  p c = false ->
  Str.rstrip_by p (String c s) = String c (Str.rstrip_by p s).
Proof. intros H. simpl. rewrite H, andb_false_r. reflexivity. Qed.

Lemma rstrip_by_idem (p : ascii -> bool) (s : string) :
  Str.rstrip_by p (Str.rstrip_by p s) = Str.rstrip_by p s.
Proof.
  induction s as [|c s IH]; simpl; [reflexivity|].
  destruct (Str.is_empty (Str.rstrip_by p s) && p c) eqn:E;
    [reflexivity|].
  simpl. rewrite IH, E. reflexivity.
Qed.

Lemma strip_by_idem (p : ascii -> bool) (s : string) :
  Str.strip_by p (Str.strip_by p s) = Str.strip_by p s.
Proof.
  unfold Str.strip_by.
  destruct (lstrip_by_cases p s) as [-> | (c & s' & -> & Hc)];
    [reflexivity|].
  rewrite (rstrip_by_head p c s' Hc), (lstrip_by_head p c _ Hc).
  rewrite <- (rstrip_by_head p c s' Hc). apply rstrip_by_idem.
Qed.

(** X2. Whitespace before and after the geometry text never changes the
    result: the text and its stripped form parse alike. *)
Theorem surrounding_whitespace_ignored (s : string) :
  parse_wkt_multipolygon (PyStr s)
  = parse_wkt_multipolygon (PyStr (Str.strip s)).
Proof.
  assert (Hidem : Str.strip (Str.strip s) = Str.strip s)
    by apply strip_by_idem.
  unfold parse_wkt_multipolygon. rewrite Hidem.
  destruct (Str.is_empty s) eqn:E.
  - destruct s; [reflexivity | discriminate].
  - destruct (Str.is_empty (Str.strip s)) eqn:E'; [|reflexivity].
    destruct (Str.strip s); [reflexivity | discriminate].
Qed.

(** ** Rows are handled one by one *)

(** X3. The collection of two datasets put end to end is the features of
    the first followed by the features of the second: a row's feature does
    not depend on the other rows. *)
Theorem collection_of_concatenation (a b : list Row) :
  exists fa fb,
    create_nta_geojson_full a = Ok {| features := fa |}
    /\ create_nta_geojson_full b = Ok {| features := fb |}
    /\ create_nta_geojson_full (a ++ b) = Ok {| features := fa ++ fb |}.
Proof.
  exists (omap Spec.feature_of_row a), (omap Spec.feature_of_row b).
  rewrite !create_nta_geojson_full_spec, omap_app. auto.
Qed.

(** ** No polygon is invented *)

Lemma polygon_loop_length (groups : list string)
    (polygons polygons' : list Polygon) :
  for_each polygon_step groups polygons = Ok polygons' ->
  length polygons' <= length polygons + length groups.
Proof.
  revert polygons. induction groups as [|g groups IH]; intros polygons; simpl.
  - intros [= <-]. lia.
  - destruct (polygon_step polygons g) as [ps|e] eqn:E; simpl;
      [|discriminate].
    unfold polygon_step in E.
    destruct (for_each ring_step _ []) as [rings|e]; simpl in E;
      [|discriminate].
    intros H. apply IH in H.
    destruct rings as [|r rings]; injection E as <-;
      rewrite ?length_app in H; simpl in H; lia.
Qed.

(** X4. An accepted text never gives more polygons than it has
    double-parenthesis groups, except that the single-polygon path gives
    one polygon when there is no group to keep. *)
Theorem polygon_count_bound (s content : string) (polygons : list Polygon) :
  Spec.accepted s content ->
  parse_wkt_multipolygon (PyStr s) = Ok (Some polygons) ->
  length polygons
  <= Nat.max 1 (length (re_findall polygon_pattern content)).
Proof.
  intros Ha. rewrite (parse_accepted s content Ha).
  unfold retained_polygons, structured_polygons.
  destruct (for_each polygon_step _ []) as [ps|e] eqn:E; simpl;
    [|discriminate].
  apply polygon_loop_length in E. simpl in E.
  destruct ps as [|p ps]; simpl.
  - rewrite fallback_polygons_spec.
    destruct (re_search triple_pattern (Str.strip s)) as [cs|]; cbv zeta;
      [destruct (3 <=? length (Spec.coordinates cs))%nat|]; simpl;
      intros [= <-]; simpl; lia.
  - intros [= <-]. simpl in *. lia.
Qed.

Lemma polygon_count_bound_witness :
  Spec.accepted "MULTIPOLYGON (((0 0,1 0,1 1)),((5 5,6 5,6 6)))"
                "((0 0,1 0,1 1)),((5 5,6 5,6 6))"
  /\ length [ [ [ [Spec.F 0; Spec.F 0]; [Spec.F 1; Spec.F 0];
                  [Spec.F 1; Spec.F 1] ] ];
              [ [ [Spec.F 5; Spec.F 5]; [Spec.F 6; Spec.F 5];
                  [Spec.F 6; Spec.F 6] ] ] ]
     <= Nat.max 1 (length (re_findall polygon_pattern
                             "((0 0,1 0,1 1)),((5 5,6 5,6 6))")).
Proof.
  assert (Ha : Spec.accepted "MULTIPOLYGON (((0 0,1 0,1 1)),((5 5,6 5,6 6)))"
                             "((0 0,1 0,1 1)),((5 5,6 5,6 6))")
    by (repeat split; vm_compute; reflexivity).
  split; [exact Ha|].
  apply (polygon_count_bound _ _ _ Ha). vm_compute. reflexivity.
Defined.

(** * [get_nta_geometry_dict] *)

Import Backend2.

Lemma plain_loop_raises (rows : list Row) (acc : list PlainFeature) :
  Exists Spec2.unreadable rows <-> plain_loop rows acc = RaisedKeyError.
Proof.
  revert acc. induction rows as [|row rows IH]; intros acc; simpl.
  - split; [intros H; inversion H | discriminate].
  - unfold plain_row_step, Spec2.unreadable at 1.
    rewrite Exists_cons.
    destruct (isna (the_geom row)) eqn:Ei.
    + rewrite <- IH.
      split; [intros [[? _]|H]; [discriminate | exact H] | auto].
    + destruct (NTA2020 row) as [code|] eqn:Ec.
      * rewrite <- IH.
        split; [intros [[_ ?]|H]; [discriminate | exact H] | auto].
      * split; [reflexivity|]. intros _. left. auto.
Qed.

Lemma plain_loop_returns (rows : list Row) (acc out : list PlainFeature) :
  plain_loop rows acc = Returned out ->
  exists rest,
    out = acc ++ rest
    /\ Forall2 (fun feature row =>
                  exists code,
                    NTA2020 row = Some code
                    /\ feature = Spec2.plain_feature row code)
               rest (List.filter Spec2.has_geometry_cell rows).
Proof.
  revert acc. induction rows as [|row rows IH]; intros acc; simpl.
  - intros [= <-]. exists []. rewrite app_nil_r. split; constructor.
  - unfold plain_row_step, Spec2.has_geometry_cell at 1.
    destruct (isna (the_geom row)) eqn:Ei; simpl.
    + apply IH.
    + destruct (NTA2020 row) as [code|] eqn:Ec; [|discriminate].
      intros H. apply IH in H as (rest & -> & Hall).
      eexists (_ :: rest). rewrite <- app_assoc. split; [reflexivity|].
      constructor; [|exact Hall]. exists code. auto.
Qed.

(** X5. [get_nta_geometry_dict] raises [KeyError] exactly when some row
    with a geometry cell has no [NTA2020]; otherwise its features are, in
    order, those of the rows whose geometry cell is not missing, one for
    each such row, with the row's name as id. *)
Theorem plain_collection_rows (nta_geo : list Row) :
  (Exists Spec2.unreadable nta_geo
   <-> get_nta_geometry_dict nta_geo = RaisedKeyError)
  /\ (forall features,
        get_nta_geometry_dict nta_geo = Returned features ->
        Forall2 (fun feature row =>
                   exists code,
                     NTA2020 row = Some code
                     /\ feature = Spec2.plain_feature row code)
                features (List.filter Spec2.has_geometry_cell nta_geo)).
Proof.
  split; [apply plain_loop_raises|].
  intros features H. apply plain_loop_returns in H as (rest & -> & Hall).
  exact Hall.
Qed.

Lemma feature_has_cell (row : Row) (feature : Feature) :
  Spec.feature_of_row row = Some feature -> isna (the_geom row) = false.
Proof.
  unfold Spec.feature_of_row.
  destruct (the_geom row); simpl; [discriminate.. | reflexivity].
Qed.

Lemma feature_id (row : Row) (feature : Feature) :
  Spec.feature_of_row row = Some feature -> id feature = NTAName row.
Proof.
  unfold Spec.feature_of_row.
  destruct (build_geometry (the_geom row)) as [[g|]|]; try discriminate.
  intros [= <-]. reflexivity.
Qed.

Lemma plain_loop_ids (rows : list Row) (acc out : list PlainFeature) :
  plain_loop rows acc = Returned out ->
  exists rest,
    out = acc ++ rest
    /\ map id (omap Spec.feature_of_row rows)
       `sublist_of` map plain_id rest.
Proof.
  revert acc. induction rows as [|row rows IH]; intros acc; simpl.
  - intros [= <-]. exists []. rewrite app_nil_r. split; constructor.
  - unfold plain_row_step.
    destruct (Spec.feature_of_row row) as [feature|] eqn:Ef.
    + rewrite (feature_has_cell _ _ Ef).
      destruct (NTA2020 row) as [code|]; [|discriminate].
      intros H. apply IH in H as (rest & -> & Hsub).
      eexists (_ :: rest). rewrite <- app_assoc. split; [reflexivity|].
      simpl. rewrite (feature_id _ _ Ef). constructor. exact Hsub.
    + destruct (isna (the_geom row)); [apply IH|].
      destruct (NTA2020 row) as [code|]; [|discriminate].
      intros H. apply IH in H as (rest & -> & Hsub).
      eexists (_ :: rest). rewrite <- app_assoc. split; [reflexivity|].
      simpl. constructor. exact Hsub.
Qed.

(** X6. On one dataset the ids of the collection with geometries are a
    subsequence of the ids of the plain collection: a neighbourhood that
    can be drawn is always listed, in the same order. *)
Theorem drawn_ids_among_plain_ids (nta_geo : list Row)
    (fc : FeatureCollection) (plain : list PlainFeature) :
  create_nta_geojson_full nta_geo = Ok fc ->
  get_nta_geometry_dict nta_geo = Returned plain ->
  map id (features fc) `sublist_of` map plain_id plain.
Proof.
  rewrite create_nta_geojson_full_spec. intros [= <-] H.
  apply plain_loop_ids in H as (rest & -> & Hsub). exact Hsub.
Qed.

Lemma drawn_ids_among_plain_ids_witness :
  map id (features
            {| features :=
                 [ {| geometry :=
                        GPolygon [ [ [Spec.F 0; Spec.F 0];
                                     [Spec.F 1; Spec.F 0];
                                     [Spec.F 1; Spec.F 1] ] ];
                      properties := {| p_NTAName := "A";
                                       p_BoroName := "X";
                                       p_NTA2020 := "1" |};
                      id := "A" |} ] |})
  `sublist_of`
  map plain_id
      [ {| plain_properties := {| p_NTAName := "A"; p_BoroName := "X";
                                  p_NTA2020 := "1" |};
           plain_id := "A" |};
        {| plain_properties := {| p_NTAName := "B"; p_BoroName := "Y";
                                  p_NTA2020 := "2" |};
           plain_id := "B" |} ].
Proof.
  apply (drawn_ids_among_plain_ids
           [ mkRow "A" "X" (Some "1")
                   (PyStr "MULTIPOLYGON (((0 0,1 0,1 1)))");
             mkRow "B" "Y" (Some "2") (PyStr "POINT (1 2)") ]);
    vm_compute; reflexivity.
Defined.

(** * [ordinal_suffix] *)

(** X7. On natural numbers [ordinal_suffix] gives the English suffix
    except on the teens of the hundreds above 100 (111, 112, 113, 211,
    ...), where it gives "st", "nd" or "rd"; on every percentile from 0 to
    100 it is the English suffix. *)
Theorem ordinal_suffix_english (n : Z) :
  (0 <= n)%Z ->
  (ordinal_suffix n = Spec2.english_suffix n
   <-> ~ (100 <= n /\ 11 <= n mod 100 <= 13)%Z)
  /\ ((n <= 100)%Z -> ordinal_suffix n = Spec2.english_suffix n).
Proof.
  intros Hn.
  assert (Hd : (n mod 10 = (n mod 100) mod 10)%Z).
  { symmetry. apply Z.mod_mod_divide. exists 10%Z. reflexivity. }
  assert (Hm : (0 <= n mod 100 < 100)%Z) by (apply Z.mod_pos_bound; lia).
  assert (Hs : (n < 100 -> n mod 100 = n)%Z)
    by (intros; apply Z.mod_small; lia).
  assert (Hiff : ordinal_suffix n = Spec2.english_suffix n
                 <-> ~ (100 <= n /\ 11 <= n mod 100 <= 13)%Z).
  { unfold ordinal_suffix, Spec2.english_suffix.
    destruct ((11 <=? n) && (n <=? 13))%Z eqn:E1;
      destruct ((11 <=? n mod 100) && (n mod 100 <=? 13))%Z eqn:E2.
    - split; [lia | reflexivity].
    - lia.
    - assert (Hc : (n mod 100 = 11 \/ n mod 100 = 12 \/ n mod 100 = 13)%Z)
        by lia.
      assert (H100 : (100 <= n)%Z) by lia.
      rewrite Hd.
      destruct Hc as [-> | [-> | ->]]; simpl;
        (split; [discriminate | intros H; exfalso; apply H; lia]).
    - split; [lia | reflexivity]. }
  split; [exact Hiff|]. intros Hle. apply Hiff. 
  destruct (Z.eq_dec n 100%Z) as [-> | Hne].
  - intros [_ [H _]]. vm_compute in H. apply H. reflexivity.
  - rewrite Hs by lia. lia.
Qed.

Lemma ordinal_suffix_english_witness :
  (ordinal_suffix 42 = Spec2.english_suffix 42
   <-> ~ (100 <= 42 /\ 11 <= 42 mod 100 <= 13)%Z)
  /\ ((42 <= 100)%Z -> ordinal_suffix 42 = Spec2.english_suffix 42).
Proof. apply (ordinal_suffix_english 42). lia. Defined.

(** * [format_year_month] *)

Import UiHelpers.

Lemma slice_to_app (n : nat) (y c : string) :
  String.length y = n -> PyInt.slice_to n (y ++ c) = y.
Proof.
  intros <-. unfold PyInt.slice_to.
  induction y as [|a y IH]; simpl; [reflexivity|].
  rewrite IH. reflexivity.
Qed.

Lemma slice_from_app (n : nat) (y c : string) :
  String.length y = n -> PyInt.slice_from n (y ++ c) = c.
Proof.
  intros <-. induction y as [|a y IH]; simpl; [reflexivity | exact IH].
Qed.

Lemma bind_Ok {A B : Type} (a : A) (f : A -> result B) : (Ok a ≫= f) = f a.
Proof. reflexivity. Qed.

Lemma bind_Raise {A B : Type} (e : exn) (f : A -> result B) :
  (Raise e ≫= f) = Raise e.
Proof. reflexivity. Qed.

(** Indexing with an [int]: in range from the front, in range from the
    end, or [IndexError]. *)
Lemma getitem_int_spec {A : Type} (xs : list A) (i : Z) :
  PyInt.getitem_int xs i
  = if decide (0 <= i < Z.of_nat (length xs))%Z
    then getitem xs (Z.to_nat i)
    else if decide (- Z.of_nat (length xs) <= i < 0)%Z
         then getitem xs (Z.to_nat (i + Z.of_nat (length xs)))
         else Raise IndexError.
Proof.
  unfold PyInt.getitem_int.
  destruct (Z.ltb_spec i 0);
    repeat match goal with
           | |- context [Z.leb ?a ?b] => destruct (Z.leb_spec a b)
           | |- context [Z.ltb ?a ?b] => destruct (Z.ltb_spec a b)
           end; simpl; repeat case_decide; try lia; reflexivity.
Qed.

(** X8. A period of four characters of year and a two-digit month from 01
    to 12 is shown as the month's name, a space and the year. *)
Theorem format_year_month_valid (year code name : string) (i : nat) :
  String.length year = 4 ->
  Spec2.month_codes !! i = Some code ->
  months !! i = Some name ->
  format_year_month (year ++ code) = Ok (name ++ " " ++ year)%string.
Proof.
  intros Hy Hc Hn. unfold format_year_month.
  rewrite (slice_to_app 4 year code Hy), (slice_from_app 4 year code Hy).
  do 12 (destruct i as [|i];
         [simpl in Hc, Hn; injection Hc as <-; injection Hn as <-;
          reflexivity|]).
  discriminate.
Qed.

Lemma format_year_month_valid_witness :
  format_year_month ("2024" ++ "03") = Ok ("Mar" ++ " " ++ "2024")%string.
Proof.
  apply (format_year_month_valid "2024" "03" "Mar" 2); reflexivity.
Defined.

(** X9. Two different well-formed periods are never shown alike. *)
Theorem format_year_month_injective (a b : string) :
  Spec2.well_formed_period a ->
  Spec2.well_formed_period b ->
  format_year_month a = format_year_month b ->
  a = b.
Proof.
  intros (ya & ca & Hya & Hca & ->) (yb & cb & Hyb & Hcb & ->).
  unfold format_year_month.
  rewrite (slice_to_app 4 ya ca Hya), (slice_from_app 4 ya ca Hya).
  rewrite (slice_to_app 4 yb cb Hyb), (slice_from_app 4 yb cb Hyb).
  clear Hya Hyb.
  apply list_elem_of_lookup_1 in Hca as [i Hi].
  apply list_elem_of_lookup_1 in Hcb as [j Hj].
  repeat (destruct i as [|i]; [simpl in Hi; injection Hi as <-|]);
    try (simpl in Hi; discriminate Hi);
    repeat (destruct j as [|j]; [simpl in Hj; injection Hj as <-|]);
    try (simpl in Hj; discriminate Hj);
    vm_compute; intros H; try discriminate H;
    injection H as <-; reflexivity.
Qed.

Lemma format_year_month_injective_witness :
  Spec2.well_formed_period "202403"
  /\ format_year_month "202403" = format_year_month ("2024" ++ "03")
  /\ "202403" = ("2024" ++ "03")%string.
Proof.
  assert (H : Spec2.well_formed_period "202403").
  { exists "2024", "03". split; [reflexivity|].
    split; [|reflexivity].
    apply (list_elem_of_lookup_2 _ 2). reflexivity. }
  split; [exact H|]. split; [reflexivity|].
  apply (format_year_month_injective "202403" ("2024" ++ "03") H H).
  reflexivity.
Defined.

Lemma slice_from_short (n : nat) (s : string) :
  String.length s <= n -> PyInt.slice_from n s = EmptyString.
Proof.
  revert s. induction n as [|n IH]; intros [|c s]; simpl; try reflexivity.
  - lia.
  - intros H. apply IH. lia.
Qed.

(** X10. What [format_year_month] does with other month texts, for a year
    of four characters: a month number from -11 to 0 is not refused but
    counted from the end of the year, so month 00 is shown as December;
    a month number of 13 or more, or of -12 or less, raises [IndexError];
    and a text of at most four characters, which has no month part, raises
    [ValueError]. *)
Theorem format_year_month_edges (year : string) :
  String.length year = 4 ->
  (forall rest n,
      PyInt.of_string rest = Ok n -> (-11 <= n <= 0)%Z ->
      exists name,
        months !! Z.to_nat (n + 11) = Some name
        /\ format_year_month (year ++ rest)
           = Ok (name ++ " " ++ year)%string)
  /\ format_year_month (year ++ "00") = Ok ("Dec " ++ year)%string
  /\ (forall rest n,
        PyInt.of_string rest = Ok n -> (n <= -12 \/ 13 <= n)%Z ->
        format_year_month (year ++ rest) = Raise IndexError)
  /\ (forall year_month,
        String.length year_month <= 4 ->
        format_year_month year_month = Raise ValueError).
Proof.
  intros Hy.
  assert (Hwrap : forall rest n,
             PyInt.of_string rest = Ok n -> (-11 <= n <= 0)%Z ->
             exists name,
               months !! Z.to_nat (n + 11) = Some name
               /\ format_year_month (year ++ rest)
                  = Ok (name ++ " " ++ year)%string).
  { intros rest n Hn Hr. unfold format_year_month.
    rewrite (slice_to_app 4 year rest Hy), (slice_from_app 4 year rest Hy).
    rewrite Hn, bind_Ok, getitem_int_spec.
    change (Z.of_nat (length months)) with 12%Z.
    destruct (lookup_lt_is_Some_2 months (Z.to_nat (n + 11))) as [name Hl];
      [simpl; lia|].
    exists name. split; [exact Hl|].
    rewrite decide_False by lia. rewrite decide_True by lia.
    replace (n - 1 + 12)%Z with (n + 11)%Z by lia.
    unfold getitem. rewrite Hl. reflexivity. }
  split; [exact Hwrap|]. split; [|split].
  - destruct (Hwrap "00" 0%Z) as (name & Hl & ->); [reflexivity | lia |].
    injection Hl as <-. reflexivity.
  - intros rest n Hn Hr. unfold format_year_month.
    rewrite (slice_to_app 4 year rest Hy), (slice_from_app 4 year rest Hy).
    rewrite Hn, bind_Ok, getitem_int_spec.
    change (Z.of_nat (length months)) with 12%Z.
    rewrite decide_False by lia. rewrite decide_False by lia.
    reflexivity.
  - intros year_month Hl. unfold format_year_month.
    rewrite (slice_from_short 4 year_month Hl). reflexivity.
Qed.

Lemma format_year_month_edges_witness :
  format_year_month ("2024" ++ "00") = Ok ("Dec " ++ "2024")%string.
Proof.
  apply (format_year_month_edges "2024"). reflexivity.
Defined.

(** * [get_comparison_periods] *)

Lemma contains_spec (x : string) (xs : list string) :
  contains x xs = true <-> x ∈ xs.
Proof.
  unfold contains. rewrite existsb_exists, list_elem_of_In. split.
  - intros (y & Hin & Heq). apply String.eqb_eq in Heq as ->. exact Hin.
  - intros H. exists x. split; [exact H | apply String.eqb_refl].
Qed.

Lemma sorted_elem (x : string) (xs : list string) : x ∈ sorted xs <-> x ∈ xs.
Proof. unfold sorted. rewrite merge_sort_Permutation. reflexivity. Qed.

Lemma sorted_sorted (xs : list string) : StronglySorted String.le (sorted xs).
Proof. apply StronglySorted_merge_sort; apply _. Qed.

Lemma two_last {A : Type} (l : list A) :
  2 <= length l -> exists pre a x, l = pre ++ [a; x].
Proof.
  intros Hl. rewrite <- (rev_involutive l) in *.
  destruct (rev l) as [|x [|a r]]; simpl in Hl; try lia.
  exists (rev r), a, x. simpl. rewrite <- app_assoc. reflexivity.
Qed.

(** The sorted list is empty, or has one element, or ends with its two
    greatest elements. *)
Lemma sorted_cases (xs : list string) :
  (xs = [] /\ sorted xs = [])
  \/ (exists x, xs = [x] /\ sorted xs = [x])
  \/ (exists pre a x, sorted xs = pre ++ [a; x]).
Proof.
  assert (Hp : sorted xs ≡ₚ xs) by apply merge_sort_Permutation.
  destruct (sorted xs) as [|x [|a r]] eqn:E.
  - left. split; [|reflexivity]. symmetry. apply Permutation_nil_l.
    exact Hp.
  - right. left. exists x. split; [|reflexivity].
    apply Permutation_singleton_r. symmetry. exact Hp.
  - right. right. apply two_last. simpl. lia.
Qed.

Lemma getitem_int_last {A : Type} (pre : list A) (a x : A) :
  PyInt.getitem_int (pre ++ [a; x]) (-1) = Ok x.
Proof.
  rewrite getitem_int_spec, length_app. simpl length.
  rewrite decide_False by lia. rewrite decide_True by lia.
  unfold getitem.
  change (pre ++ [a; x]) with (pre ++ [a] ++ [x]).
  rewrite app_assoc, (list_lookup_middle (pre ++ [a]) [] x); [reflexivity|].
  rewrite length_app. simpl. lia.
Qed.

Lemma getitem_int_second_last {A : Type} (pre : list A) (a x : A) :
  PyInt.getitem_int (pre ++ [a; x]) (-2) = Ok a.
Proof.
  rewrite getitem_int_spec, length_app. simpl length.
  rewrite decide_False by lia. rewrite decide_True by lia.
  unfold getitem.
  rewrite (list_lookup_middle pre [x] a); [reflexivity | lia].
Qed.

Lemma comparison_periods_long (year_months pre : list string) (a x : string) :
  sorted year_months = pre ++ [a; x] ->
  get_comparison_periods year_months
  = (latest_year ← PyInt.of_string (PyInt.slice_to 4 x);
     year_text ← PyInt.to_string (latest_year - 1);
     let previous := (year_text ++ PyInt.slice_from 4 x)%string in
     if contains previous (sorted year_months)
     then Ok (previous, x) else Ok (a, x)).
Proof.
  intros E. unfold get_comparison_periods. cbv zeta. rewrite E.
  assert (Hl : (length (pre ++ [a; x]) <? 2)%nat = false).
  { apply Nat.ltb_ge. rewrite length_app. simpl. lia. }
  rewrite Hl, getitem_int_last, bind_Ok.
  destruct (PyInt.of_string (PyInt.slice_to 4 x)) as [n|e];
    [|reflexivity].
  rewrite !bind_Ok.
  destruct (PyInt.to_string (n - 1)) as [t|e]; [|reflexivity].
  rewrite !bind_Ok. cbv zeta.
  destruct (contains _ _); [reflexivity|].
  rewrite getitem_int_second_last. reflexivity.
Qed.

Lemma int_of_string_cases (s : string) :
  (exists n, PyInt.of_string s = Ok n) \/ PyInt.of_string s = Raise ValueError.
Proof.
  unfold PyInt.of_string.
  destruct (PyFloat.read_sign _) as [neg t1].
  destruct (PyFloat.drop_underscores t1 None) as [t2|]; [|right; reflexivity].
  destruct (PyFloat.read_digits t2 0 0) as [[v cnt] rest].
  destruct cnt as [|cnt]; [right; reflexivity|].
  destruct rest; [|right; reflexivity].
  destruct (S cnt <=? PyInt.max_str_digits)%nat; eauto.
Qed.

Lemma to_string_cases (z : Z) :
  (exists t, PyInt.to_string z = Ok t) \/ PyInt.to_string z = Raise ValueError.
Proof. unfold PyInt.to_string. destruct (_ <=? _)%nat; eauto. Qed.

(** X11. [get_comparison_periods] raises [IndexError] exactly on the empty
    list, and on a list of one period it compares the period with
    itself. *)
Theorem comparison_periods_empty (year_months : list string) :
  (get_comparison_periods year_months = Raise IndexError
   <-> year_months = [])
  /\ (forall x, year_months = [x] ->
                get_comparison_periods year_months = Ok (x, x)).
Proof.
  destruct (sorted_cases year_months)
    as [[-> E] | [(x & -> & E) | (pre & a & x & E)]].
  - split; [split; reflexivity | discriminate].
  - assert (H : get_comparison_periods [x] = Ok (x, x)).
    { unfold get_comparison_periods. cbv zeta. rewrite E. reflexivity. }
    split; [rewrite H; split; discriminate|].
    intros y [= <-]. exact H.
  - split.
    + rewrite (comparison_periods_long _ _ _ _ E).
      split.
      * destruct (int_of_string_cases (PyInt.slice_to 4 x)) as [[n ->]| ->];
          [|discriminate].
        rewrite bind_Ok.
        destruct (to_string_cases (n - 1)) as [[t ->]| ->]; [|discriminate].
        rewrite bind_Ok. cbv zeta. destruct (contains _ _); discriminate.
      * intros ->.
        assert (Hl : length (sorted []) = 0) by reflexivity.
        rewrite E, length_app in Hl. simpl in Hl. lia.
    + intros y ->. assert (Hl : length (sorted [y]) = 1)
        by (unfold sorted; rewrite merge_sort_Permutation; reflexivity).
      rewrite E, length_app in Hl. simpl in Hl. lia.
Qed.

(** X12. When [get_comparison_periods] returns a pair, both periods come
    from the list, the first is not after the second, and the second is
    the latest period of the list. *)
Theorem comparison_periods_result (year_months : list string) (a b : string) :
  get_comparison_periods year_months = Ok (a, b) ->
  a ∈ year_months
  /\ b ∈ year_months
  /\ String.le a b
  /\ (forall x, x ∈ year_months -> String.le x b).
Proof.
  destruct (sorted_cases year_months)
    as [[-> E] | [(x & -> & E) | (pre & a0 & x & E)]].
  - discriminate.
  - unfold get_comparison_periods. cbv zeta. rewrite E. intros [= <- <-].
    repeat split; try apply list_elem_of_singleton; try reflexivity.
    intros y ->%list_elem_of_singleton. reflexivity.
  - rewrite (comparison_periods_long _ _ _ _ E).
    assert (Hs := sorted_sorted year_months). rewrite E in Hs.
    assert (Hmax : forall y, y ∈ year_months -> String.le y x).
    { intros y Hy. apply sorted_elem in Hy. rewrite E in Hy.
      change (pre ++ [a0; x]) with (pre ++ [a0] ++ [x]) in Hy, Hs.
      rewrite app_assoc in Hy, Hs.
      apply elem_of_app in Hy as [Hy | ->%list_elem_of_singleton];
        [|reflexivity].
      apply (StronglySorted_app_1_elem_of _ _ _ _ _ Hs Hy).
      apply list_elem_of_singleton. reflexivity. }
    assert (Hx : x ∈ year_months).
    { apply sorted_elem. rewrite E, elem_of_app, !elem_of_cons. auto. }
    assert (Ha0 : a0 ∈ year_months).
    { apply sorted_elem. rewrite E, elem_of_app, !elem_of_cons. auto. }
    destruct (PyInt.of_string (PyInt.slice_to 4 x)) as [n|e];
      [|discriminate].
    rewrite bind_Ok.
    destruct (PyInt.to_string (n - 1)) as [t|e]; [|discriminate].
    rewrite bind_Ok. cbv zeta.
    destruct (contains _ _) eqn:Ec; intros [= <- <-].
    + apply (proj1 (contains_spec _ _)) in Ec.
      apply (proj1 (sorted_elem _ _)) in Ec.
      split; [exact Ec|]. split; [exact Hx|]. split; [|exact Hmax].
      apply Hmax, Ec.
    + split; [exact Ha0|]. split; [exact Hx|]. split; [|exact Hmax].
      apply Hmax, Ha0.
Qed.

Lemma comparison_periods_result_witness :
  "202402" ∈ ["202401"; "202402"; "202302"]
  /\ "202302" ∈ ["202401"; "202402"; "202302"]
  /\ String.le "202302" "202402".
Proof.
  assert (H : get_comparison_periods ["202401"; "202402"; "202302"]
              = Ok ("202302", "202402")) by (vm_compute; reflexivity).
  destruct (comparison_periods_result _ _ _ H) as (Ha & Hb & Hle & _).
  auto.
Defined.

(** Numbers of at most four digits are printed without sign and read
    back; from 1000 on they have four digits. *)
Lemma small_numbers (z : Z) :
  (0 <= z <= 9999)%Z ->
  PyInt.to_string z = Ok (PyInt.digits z)
  /\ PyInt.of_string (PyInt.digits z) = Ok z
  /\ ((1000 <= z)%Z -> String.length (PyInt.digits z) = 4).
Proof.
  intros Hz.
  assert (H : forallb
                (fun n =>
                   let z := Z.of_nat n in
                   match PyInt.to_string z,
                         PyInt.of_string (PyInt.digits z) with
                   | Ok t, Ok z' =>
                       String.eqb t (PyInt.digits z) && (z' =? z)%Z
                       && ((n <? 1000)%nat
                           || (String.length (PyInt.digits z) =? 4)%nat)
                   | _, _ => false
                   end) (seq 0 (100 * 100)) = true)
    by (vm_compute; reflexivity).
  rewrite forallb_forall in H.
  specialize (H (Z.to_nat z) ltac:(apply in_seq; lia)).
  cbv zeta in H. rewrite Z2Nat.id in H by lia.
  destruct (PyInt.to_string z) as [t|]; [|discriminate].
  destruct (PyInt.of_string (PyInt.digits z)) as [z'|]; [|discriminate].
  apply andb_prop in H as [H H3]. apply andb_prop in H as [H1 H2].
  apply String.eqb_eq in H1 as ->. apply Z.eqb_eq in H2 as ->.
  split; [reflexivity|]. split; [reflexivity|]. intros Hk.
  apply orb_prop in H3 as [H3|H3].
  - apply Nat.ltb_lt in H3. lia.
  - apply Nat.eqb_eq in H3. exact H3.
Qed.

Lemma sorted_last_max (year_months pre : list string) (a x : string) :
  sorted year_months = pre ++ [a; x] ->
  x ∈ year_months
  /\ a ∈ year_months
  /\ (forall y, y ∈ year_months -> String.le y x)
  /\ (forall y, y ∈ year_months -> y <> x -> String.le y a).
Proof.
  intros E. assert (Hs := sorted_sorted year_months). rewrite E in Hs.
  split; [|split; [|split]].
  - apply sorted_elem. rewrite E, elem_of_app, !elem_of_cons. auto.
  - apply sorted_elem. rewrite E, elem_of_app, !elem_of_cons. auto.
  - intros y Hy. apply sorted_elem in Hy. rewrite E in Hy.
    change (pre ++ [a; x]) with (pre ++ [a] ++ [x]) in Hy, Hs.
    rewrite app_assoc in Hy, Hs.
    apply elem_of_app in Hy as [Hy | ->%list_elem_of_singleton];
      [|reflexivity].
    apply (StronglySorted_app_1_elem_of _ _ _ _ _ Hs Hy).
    apply list_elem_of_singleton. reflexivity.
  - intros y Hy Hne. apply sorted_elem in Hy. rewrite E in Hy.
    apply elem_of_app in Hy as [Hy | Hy].
    + apply (StronglySorted_app_1_elem_of _ _ _ _ _ Hs Hy).
      apply elem_of_cons. auto.
    + apply elem_of_cons in Hy as [-> | Hy]; [reflexivity|].
      apply list_elem_of_singleton in Hy. contradiction.
Qed.

(** X13. Year over year comes first.  Let the latest period of a list of
    at least two periods be a four-digit year [y] followed by a month
    text [m].  When the list holds the same month of the year before, the
    two are compared; otherwise the latest period is compared with the
    greatest of the other periods. *)
Theorem year_over_year_preferred (year_months : list string) (y : Z)
    (m : string) :
  (1000 <= y <= 9999)%Z ->
  2 <= length year_months ->
  (PyInt.digits y ++ m)%string ∈ year_months ->
  (forall x, x ∈ year_months -> String.le x (PyInt.digits y ++ m)) ->
  ((PyInt.digits (y - 1) ++ m)%string ∈ year_months ->
   get_comparison_periods year_months
   = Ok ((PyInt.digits (y - 1) ++ m)%string, (PyInt.digits y ++ m)%string))
  /\ ((PyInt.digits (y - 1) ++ m)%string ∉ year_months ->
      exists a,
        get_comparison_periods year_months
        = Ok (a, (PyInt.digits y ++ m)%string)
        /\ a ∈ year_months
        /\ (forall x, x ∈ year_months ->
                      x <> (PyInt.digits y ++ m)%string -> String.le x a)).
Proof.
  intros Hy Hlen Hin Hmax.
  destruct (sorted_cases year_months)
    as [[-> E] | [(x & -> & E) | (pre & a & x & E)]];
    [simpl in Hlen; lia | simpl in Hlen; lia |].
  destruct (sorted_last_max _ _ _ _ E) as (Hx & Ha & Hxmax & Hamax).
  assert (Hlatest : x = (PyInt.digits y ++ m)%string).
  { apply (anti_symm String.le); [apply Hmax, Hx | apply Hxmax, Hin]. }
  subst x.
  destruct (small_numbers y ltac:(lia)) as (_ & Hread & Hfour).
  destruct (small_numbers (y - 1) ltac:(lia)) as (Hprint & _ & _).
  rewrite (comparison_periods_long _ _ _ _ E).
  rewrite (slice_to_app 4 _ m (Hfour ltac:(lia))).
  rewrite (slice_from_app 4 _ m (Hfour ltac:(lia))).
  rewrite Hread, bind_Ok, Hprint, bind_Ok. cbv zeta.
  split.
  - intros Hprev. apply sorted_elem, contains_spec in Hprev.
    rewrite Hprev. reflexivity.
  - intros Hprev.
    destruct (contains _ (sorted year_months)) eqn:Ec.
    + apply (proj1 (contains_spec _ _)) in Ec.
      apply (proj1 (sorted_elem _ _)) in Ec. contradiction.
    + exists a. auto.
Qed.

Lemma year_over_year_preferred_witness :
  get_comparison_periods ["202401"; "202402"; "202302"]
  = Ok ((PyInt.digits (2024 - 1) ++ "02")%string,
        (PyInt.digits 2024 ++ "02")%string).
Proof.
  apply (year_over_year_preferred ["202401"; "202402"; "202302"] 2024 "02").
  - lia.
  - simpl. lia.
  - apply (list_elem_of_lookup_2 _ 1). reflexivity.
  - intros x Hx. apply list_elem_of_lookup_1 in Hx as [i Hi].
    destruct i as [|[|[|i]]]; simpl in Hi; try discriminate Hi;
      injection Hi as <-; vm_compute; reflexivity.
  - apply (list_elem_of_lookup_2 _ 2). reflexivity.
Defined.

(** * What the choropleth map reads from the collection *)

Import Visualizations.

Lemma geojson_ntas_rows (nta_geo : list Row) :
  map id (omap Spec.feature_of_row nta_geo)
  `sublist_of` map NTAName nta_geo.
Proof.
  induction nta_geo as [|row rows IH]; simpl; [constructor|].
  destruct (Spec.feature_of_row row) as [feature|] eqn:E; simpl.
  - rewrite (feature_id _ _ E). constructor. exact IH.
  - constructor. exact IH.
Qed.

Lemma feature_of_row_geometry (row : Row) :
  (exists feature, Spec.feature_of_row row = Some feature)
  <-> (exists g, build_geometry (the_geom row) = Ok (Some g)).
Proof.
  unfold Spec.feature_of_row.
  destruct (build_geometry (the_geom row)) as [[g|]|e]; split;
    intros [z H]; try discriminate H; eauto.
Qed.

(** X14. The names the map can colour, [geojson_ntas], are a subsequence
    of the names of the dataset, and a name is among them exactly when
    some row of that name has a geometry that can be built. *)
Theorem drawable_names (nta_geo : list Row) (fc : FeatureCollection) :
  create_nta_geojson_full nta_geo = Ok fc ->
  geojson_ntas fc `sublist_of` map NTAName nta_geo
  /\ (forall nta,
        nta ∈ geojson_ntas fc
        <-> exists row g,
              row ∈ nta_geo
              /\ NTAName row = nta
              /\ build_geometry (the_geom row) = Ok (Some g)).
Proof.
  rewrite create_nta_geojson_full_spec. intros [= <-].
  unfold geojson_ntas. simpl. split; [apply geojson_ntas_rows|].
  intros nta. rewrite list_elem_of_fmap. split.
  - intros (feature & -> & Hf).
    apply list_elem_of_omap in Hf as (row & Hrow & E).
    destruct (proj1 (feature_of_row_geometry row)) as [g Hg]; [eauto|].
    exists row, g. split; [exact Hrow|]. split; [|exact Hg].
    symmetry. apply feature_id, E.
  - intros (row & g & Hrow & <- & Hg).
    destruct (proj2 (feature_of_row_geometry row)) as [feature E]; [eauto|].
    exists feature. split; [symmetry; apply feature_id, E|].
    apply list_elem_of_omap. eauto.
Qed.

Lemma drawable_names_witness :
  geojson_ntas
    {| features :=
         [ {| geometry :=
                GPolygon [ [ [Spec.F 0; Spec.F 0];
                             [Spec.F 1; Spec.F 0];
                             [Spec.F 1; Spec.F 1] ] ];
              properties := {| p_NTAName := "A";
                               p_BoroName := "X";
                               p_NTA2020 := "1" |};
              id := "A" |} ] |}
  `sublist_of`
  map NTAName [ mkRow "A" "X" (Some "1")
                      (PyStr "MULTIPOLYGON (((0 0,1 0,1 1)))");
                mkRow "B" "Y" (Some "2") (PyStr "POINT (1 2)") ].
Proof.
  apply (drawable_names
           [ mkRow "A" "X" (Some "1")
                   (PyStr "MULTIPOLYGON (((0 0,1 0,1 1)))");
             mkRow "B" "Y" (Some "2") (PyStr "POINT (1 2)") ]).
  vm_compute. reflexivity.
Defined.

Lemma first_with_id_None (fs : list Feature) (nta : string) :
  first_with_id fs nta = None <-> nta ∉ map id fs.
Proof.
  induction fs as [|f fs IH]; simpl.
  - split; [intros _ H; inversion H | reflexivity].
  - rewrite not_elem_of_cons.
    destruct (String.eqb (id f) nta) eqn:E.
    + apply String.eqb_eq in E.
      split; [discriminate | intros [H _]; congruence].
    + apply String.eqb_neq in E. rewrite IH.
      split; [intros H; split; [congruence | exact H] | intros [_ H]; exact H].
Qed.

Lemma first_with_id_rows (rows : list Row) (nta : string) (f : Feature) :
  first_with_id (omap Spec.feature_of_row rows) nta = Some f ->
  exists before row after,
    rows = before ++ row :: after
    /\ NTAName row = nta
    /\ Spec.feature_of_row row = Some f
    /\ Forall (fun r => NTAName r = nta -> Spec.feature_of_row r = None)
              before.
Proof.
  induction rows as [|row rows IH]; simpl; [discriminate|].
  destruct (Spec.feature_of_row row) as [f0|] eqn:Ef; simpl.
  - destruct (String.eqb (id f0) nta) eqn:E.
    + intros [= <-]. apply String.eqb_eq in E.
      exists [], row, rows. rewrite <- (feature_id _ _ Ef). auto.
    + intros H. destruct (IH H) as (before & r & after & -> & Hn & Hf & Hb).
      exists (row :: before), r, after. repeat split; auto.
      constructor; [|exact Hb]. intros Hrow.
      apply String.eqb_neq in E. rewrite (feature_id _ _ Ef) in E.
      contradiction.
  - intros H. destruct (IH H) as (before & r & after & -> & Hn & Hf & Hb).
    exists (row :: before), r, after. repeat split; auto.
Qed.

(** X15. For a non-empty selected name the outline drawn on the map is the
    feature of the first row of that name that has a geometry; none is
    drawn exactly when the name is not among [geojson_ntas]. *)
Theorem selected_outline (nta_geo : list Row) (fc : FeatureCollection)
    (nta : string) :
  create_nta_geojson_full nta_geo = Ok fc ->
  Str.is_empty nta = false ->
  (selected_feature fc (Some nta) = None <-> nta ∉ geojson_ntas fc)
  /\ (forall f,
        selected_feature fc (Some nta) = Some f ->
        exists before row after,
          nta_geo = before ++ row :: after
          /\ NTAName row = nta
          /\ Spec.feature_of_row row = Some f
          /\ Forall (fun r => NTAName r = nta ->
                              Spec.feature_of_row r = None) before).
Proof.
  rewrite create_nta_geojson_full_spec. intros [= <-] Hne.
  unfold selected_feature, geojson_ntas. rewrite Hne. simpl.
  split; [apply first_with_id_None|].
  intros f. apply first_with_id_rows.
Qed.

Lemma selected_outline_witness :
  selected_feature
    {| features :=
         [ {| geometry :=
                GPolygon [ [ [Spec.F 0; Spec.F 0];
                             [Spec.F 1; Spec.F 0];
                             [Spec.F 1; Spec.F 1] ] ];
              properties := {| p_NTAName := "A";
                               p_BoroName := "X";
                               p_NTA2020 := "1" |};
              id := "A" |} ] |} (Some "B") = None.
Proof.
  apply (selected_outline
           [ mkRow "A" "X" (Some "1")
                   (PyStr "MULTIPOLYGON (((0 0,1 0,1 1)))");
             mkRow "B" "Y" (Some "2") (PyStr "POINT (1 2)") ]).
  - vm_compute. reflexivity.
  - reflexivity.
  - unfold geojson_ntas. simpl. intros H.
    apply list_elem_of_singleton in H. discriminate H.
Defined.

(** * The default periods can be shown *)

Lemma format_dated (year_month : string) :
  Spec2.dated_period year_month ->
  exists shown, format_year_month year_month = Ok shown.
Proof.
  intros (y & code & Hy & Hc & ->).
  destruct (small_numbers y ltac:(lia)) as (_ & _ & Hfour).
  specialize (Hfour ltac:(lia)).
  apply list_elem_of_lookup_1 in Hc as [i Hi].
  unfold format_year_month.
  rewrite (slice_to_app 4 _ code Hfour), (slice_from_app 4 _ code Hfour).
  do 12 (destruct i as [|i];
         [simpl in Hi; injection Hi as <-; eexists; reflexivity|]).
  discriminate.
Qed.

Lemma comparison_periods_dated (year_months : list string) :
  year_months <> [] ->
  Forall Spec2.dated_period year_months ->
  exists a b,
    get_comparison_periods year_months = Ok (a, b)
    /\ a ∈ year_months /\ b ∈ year_months.
Proof.
  intros Hne Hall. rewrite Forall_forall in Hall.
  destruct (sorted_cases year_months)
    as [[-> E] | [(x & -> & E) | (pre & a & x & E)]]; [contradiction| |].
  - exists x, x. unfold get_comparison_periods. cbv zeta. rewrite E.
    split; [reflexivity|]. split; apply list_elem_of_singleton; reflexivity.
  - destruct (sorted_last_max _ _ _ _ E) as (Hx & Ha & _ & _).
    destruct (Hall x Hx) as (y & code & Hy & _ & Ex).
    destruct (small_numbers y ltac:(lia)) as (_ & Hread & Hfour).
    destruct (small_numbers (y - 1) ltac:(lia)) as (Hprint & _ & _).
    subst x. rewrite (comparison_periods_long _ _ _ _ E).
    rewrite (slice_to_app 4 _ code (Hfour ltac:(lia))).
    rewrite Hread, bind_Ok, Hprint, bind_Ok. cbv zeta.
    destruct (contains _ (sorted year_months)) eqn:Ec.
    + apply (proj1 (contains_spec _ _)) in Ec.
      apply (proj1 (sorted_elem _ _)) in Ec. eauto.
    + eauto.
Qed.

(** X16. On a non-empty list of dated periods the default comparison never
    raises, and both periods it returns can be shown by
    [format_year_month]. *)
Theorem default_periods_displayable (year_months : list string) :
  year_months <> [] ->
  Forall Spec2.dated_period year_months ->
  exists a b shown_a shown_b,
    get_comparison_periods year_months = Ok (a, b)
    /\ format_year_month a = Ok shown_a
    /\ format_year_month b = Ok shown_b.
Proof.
  intros Hne Hall.
  destruct (comparison_periods_dated _ Hne Hall) as (a & b & E & Ha & Hb).
  rewrite Forall_forall in Hall.
  destruct (format_dated a (Hall a Ha)) as [shown_a Ea].
  destruct (format_dated b (Hall b Hb)) as [shown_b Eb].
  exists a, b, shown_a, shown_b. auto.
Qed.

Lemma default_periods_displayable_witness :
  exists a b shown_a shown_b,
    get_comparison_periods ["202401"; "202402"] = Ok (a, b)
    /\ format_year_month a = Ok shown_a
    /\ format_year_month b = Ok shown_b.
Proof.
  apply default_periods_displayable; [discriminate|].
  repeat constructor.
  - exists 2024%Z, "01". split; [lia|]. split; [|reflexivity].
    apply (list_elem_of_lookup_2 _ 0). reflexivity.
  - exists 2024%Z, "02". split; [lia|]. split; [|reflexivity].
    apply (list_elem_of_lookup_2 _ 1). reflexivity.
Defined.

(** * The matcher on texts in the standard writing *)

Section Greedy.
Context {A : Type}.
Implicit Types (k : string -> option string -> option A).

Lemma exec_lits (t s : string) g k :
  exec (lits t) (t +:+ s) g k = k s g.
Proof.
  induction t as [|c t IH]; simpl; [reflexivity|].
  rewrite Ascii.eqb_refl. exact IH.
Qed.

(** A greedy repetition whose body cannot match here matches nothing. *)
Lemma rep_greedy_stop (r : regex) s g k :
  (forall k' : string -> option string -> option A, exec r s g k' = None) ->
  exec (Rep true r) s g k = k s g.
Proof.
  intros H. simpl. destruct (String.length s); simpl; [reflexivity|].
  rewrite H. reflexivity.
Qed.

(** A greedy repetition of a character class first goes on, then stops. *)
Lemma rep_chr_cons (p : ascii -> bool) c s g k :
  p c = true ->
  exec (Rep true (Chr p)) (String c s) g k
  = orelse (exec (Rep true (Chr p)) s g k) (fun _ => k (String c s) g).
Proof.
  intros Hp. simpl. rewrite Hp.
  assert (E : (String.length s <? S (String.length s))%nat = true)
    by (apply Nat.ltb_lt; lia).
  rewrite E. reflexivity.
Qed.

Lemma rep_chr_stop (p : ascii -> bool) s g k :
  match s with String c _ => p c | EmptyString => false end = false ->
  exec (Rep true (Chr p)) s g k = k s g.
Proof.
  intros H. apply rep_greedy_stop. intros k'. simpl.
  destruct s as [|c s]; [reflexivity|]. rewrite H. reflexivity.
Qed.

(** It takes all the characters of the class when what follows the class
    lets the rest of the pattern match. *)
Lemma rep_chr_commit (p : ascii -> bool) (x s : string) g k v :
  Spec2.all_chars p x = true ->
  match s with String c _ => p c | EmptyString => false end = false ->
  k s g = Some v ->
  exec (Rep true (Chr p)) (x +:+ s) g k = Some v.
Proof.
  intros Hx Hs Hk. induction x as [|c x IH]; simpl in Hx.
  - change (EmptyString +:+ s) with s. rewrite rep_chr_stop by exact Hs.
    exact Hk.
  - apply andb_prop in Hx as [Hc Hx].
    change (String c x +:+ s) with (String c (x +:+ s)).
    rewrite rep_chr_cons by exact Hc. rewrite IH by exact Hx. reflexivity.
Qed.

(** It fails when the rest of the pattern matches after no part of the
    class. *)
Lemma rep_chr_none (p : ascii -> bool) (x s : string) g k :
  Spec2.all_chars p x = true ->
  match s with String c _ => p c | EmptyString => false end = false ->
  (forall y, Spec2.all_chars p y = true -> k (y +:+ s) g = None) ->
  exec (Rep true (Chr p)) (x +:+ s) g k = None.
Proof.
  intros Hx Hs Hk. induction x as [|c x IH].
  - change (EmptyString +:+ s) with s. rewrite rep_chr_stop by exact Hs.
    apply (Hk EmptyString). reflexivity.
  - assert (Hx' := Hx). simpl in Hx'. apply andb_prop in Hx' as [Hc Hx'].
    change (String c x +:+ s) with (String c (x +:+ s)).
    rewrite rep_chr_cons by exact Hc. rewrite IH by exact Hx'. simpl.
    apply (Hk (String c x)). exact Hx.
Qed.

(** Under [re.DOTALL] a greedy [.*] gives back the last character when
    the rest of the pattern needs one character and matches it. *)
Lemma rep_dotall_last (x : string) c g k v :
  k EmptyString g = None ->
  k (String c EmptyString) g = Some v ->
  exec (Rep true dotall) (x +:+ String c EmptyString) g k = Some v.
Proof.
  intros H0 H1. unfold dotall. induction x as [|d x IH].
  - change (EmptyString +:+ String c EmptyString) with (String c EmptyString).
    rewrite rep_chr_cons by reflexivity.
    rewrite rep_chr_stop by reflexivity. rewrite H0. exact H1.
  - change (String d x +:+ String c EmptyString)
      with (String d (x +:+ String c EmptyString)).
    rewrite rep_chr_cons by reflexivity. rewrite IH. reflexivity.
Qed.

End Greedy.

Lemma string_app_cons (c : ascii) (x s : string) :
  String c x +:+ s = String c (x +:+ s).
Proof. reflexivity. Qed.

Lemma string_length_app (x s : string) :
  String.length (x +:+ s) = String.length x + String.length s.
Proof.
  induction x as [|c x IH]; [reflexivity|].
  rewrite string_app_cons. simpl. rewrite IH. reflexivity.
Qed.

Lemma string_app_assoc (x y z : string) : (x +:+ y) +:+ z = x +:+ y +:+ z.
Proof.
  induction x as [|c x IH]; [reflexivity|].
  rewrite !string_app_cons, IH. reflexivity.
Qed.

Lemma string_app_nil_r (x : string) : x +:+ EmptyString = x.
Proof.
  induction x as [|c x IH]; [reflexivity|].
  rewrite string_app_cons, IH. reflexivity.
Qed.

Lemma take_app (x s : string) : Str.take (String.length x) (x +:+ s) = x.
Proof.
  induction x as [|c x IH]; [destruct s; reflexivity|].
  rewrite string_app_cons. simpl. rewrite IH. reflexivity.
Qed.

Lemma take_app_length (x s : string) :
  Str.take (String.length (x +:+ s) - String.length s) (x +:+ s) = x.
Proof.
  replace (String.length (x +:+ s) - String.length s) with (String.length x)
    by (rewrite string_length_app; lia).
  apply take_app.
Qed.

(** ** The outer pattern *)

Lemma isspace_stop_open (s : string) :
  match ("(" +:+ s) with String c _ => Str.isspace c | EmptyString => false end
  = false.
Proof. reflexivity. Qed.

Lemma outer_pattern_match_at (ws content : string) :
  Spec2.all_chars Str.isspace ws = true ->
  content <> EmptyString ->
  match content with String c _ => Str.isspace c | EmptyString => false end
  = false ->
  match_at outer_pattern
    ("MULTIPOLYGON" +:+ ws +:+ "(" +:+ content +:+ ")")
  = Some (EmptyString, Some content).
Proof.
  intros Hws Hne Hc. unfold match_at, outer_pattern.
  exec_seq. rewrite exec_lits. exec_seq.
  apply rep_chr_commit; [exact Hws | reflexivity |].
  exec_seq.
  change ("(" +:+ content +:+ ")") with (String "(" (content +:+ ")")).
  change (exec (lit "(") (String "(" ?s) ?g ?k) with (k s g). cbv beta.
  exec_seq. unfold space at 1. rewrite rep_chr_stop.
  2:{ destruct content as [|c content]; [contradiction | exact Hc]. }
  exec_seq. exec_grp. unfold Rep1. exec_seq.
  destruct content as [|c content]; [contradiction|].
  rewrite string_app_cons.
  change (exec dotall (String c ?s) ?g ?k) with (k s g). cbv beta.
  apply rep_dotall_last; [reflexivity|].
  simpl exec. rewrite Nat.sub_0_r, string_length_app.
  replace (String.length content + String.length ")")
    with (String.length (String c content)) by (simpl; lia).
  rewrite <- string_app_cons, take_app. reflexivity.
Qed.

(** ** The polygon pattern *)

Section Class.
Context {A : Type}.
Implicit Types (k : string -> option string -> option A).

Lemma exec_chr_cons (p : ascii -> bool) c s g k :
  exec (Chr p) (String c s) g k = if p c then k s g else None.
Proof. reflexivity. Qed.

Lemma rep1_chr_commit (p : ascii -> bool) (x s : string) g k v :
  x <> EmptyString ->
  Spec2.all_chars p x = true ->
  match s with String c _ => p c | EmptyString => false end = false ->
  k s g = Some v ->
  exec (Rep1 true (Chr p)) (x +:+ s) g k = Some v.
Proof.
  intros Hne Hx Hs Hk. destruct x as [|c x]; [contradiction|].
  simpl in Hx. apply andb_prop in Hx as [Hc Hx].
  unfold Rep1. exec_seq. rewrite string_app_cons, exec_chr_cons, Hc.
  apply rep_chr_commit; assumption.
Qed.

Lemma rep1_chr_none (p : ascii -> bool) (x s : string) g k :
  Spec2.all_chars p x = true ->
  match s with String c _ => p c | EmptyString => false end = false ->
  (forall y, Spec2.all_chars p y = true -> k (y +:+ s) g = None) ->
  exec (Rep1 true (Chr p)) (x +:+ s) g k = None.
Proof.
  intros Hx Hs Hk. unfold Rep1. exec_seq. destruct x as [|c x].
  - change (EmptyString +:+ s) with s. destruct s as [|c s]; [reflexivity|].
    rewrite exec_chr_cons, Hs. reflexivity.
  - simpl in Hx. apply andb_prop in Hx as [Hc Hx].
    rewrite string_app_cons, exec_chr_cons, Hc.
    apply rep_chr_none; assumption.
Qed.

End Class.

Lemma paren_free_head (c : ascii) (s : string) :
  Spec2.paren_free (String c s) = true ->
  Ascii.eqb "(" c = false /\ Ascii.eqb ")" c = false
  /\ Spec2.paren_free s = true.
Proof.
  unfold Spec2.paren_free. simpl. intros H.
  apply andb_prop in H as [Hc Hs]. apply negb_true_iff in Hc.
  apply orb_false_elim in Hc as [H1 H2].
  rewrite Ascii.eqb_sym in H1. rewrite Ascii.eqb_sym in H2. auto.
Qed.

(** A group of one ring is matched and its ring captured. *)
Lemma polygon_pattern_ring (ring rest : string) :
  ring <> EmptyString ->
  Spec2.paren_free ring = true ->
  match_at polygon_pattern ("((" +:+ ring +:+ "))" +:+ rest)
  = Some (rest, Some ring).
Proof.
  intros Hne Hr. unfold match_at, polygon_pattern.
  exec_seq. rewrite exec_lits. exec_seq. exec_grp. exec_seq.
  unfold not_paren at 1.
  apply rep1_chr_commit; [exact Hne | exact Hr | reflexivity |].
  rewrite rep_greedy_stop by (intros; reflexivity).
  rewrite exec_lits, take_app_length. reflexivity.
Qed.

(** A group whose first ring is followed by anything but a closing
    parenthesis is not matched. *)
Lemma polygon_pattern_rings (ring t : string) :
  Spec2.paren_free ring = true ->
  Spec2.not_closing t = true ->
  match_at polygon_pattern ("((" +:+ ring +:+ ")" +:+ t) = None.
Proof.
  intros Hr Ht. unfold match_at, polygon_pattern.
  exec_seq. rewrite exec_lits. exec_seq. exec_grp. exec_seq.
  unfold not_paren at 1.
  apply rep1_chr_none; [exact Hr | reflexivity |].
  intros y Hy. destruct y as [|d y].
  - change (EmptyString +:+ ")" +:+ t) with (String ")" t).
    rewrite rep_greedy_stop by (intros; reflexivity).
    simpl lits. exec_seq. unfold lit at 1. rewrite exec_chr_cons.
    simpl Ascii.eqb. cbv iota. exec_seq.
    destruct t as [|c t]; [reflexivity|].
    unfold lit at 1. rewrite exec_chr_cons.
    simpl in Ht. apply negb_true_iff in Ht.
    rewrite Ascii.eqb_sym, Ht. reflexivity.
  - apply paren_free_head in Hy as (H1 & H2 & _).
    rewrite string_app_cons.
    rewrite rep_greedy_stop.
    2:{ intros k'. exec_seq. unfold lit at 1.
        rewrite exec_chr_cons, H1. reflexivity. }
    simpl lits. exec_seq. unfold lit at 1. rewrite exec_chr_cons, H2.
    reflexivity.
Qed.

Lemma polygon_pattern_not_open (c : ascii) (s : string) :
  Ascii.eqb c "(" = false -> match_at polygon_pattern (String c s) = None.
Proof.
  intros H. unfold match_at, polygon_pattern. exec_seq. simpl lits.
  exec_seq. unfold lit at 1. rewrite exec_chr_cons, Ascii.eqb_sym, H.
  reflexivity.
Qed.

Lemma polygon_pattern_one_open (c : ascii) (s : string) :
  Ascii.eqb c "(" = false ->
  match_at polygon_pattern (String "(" (String c s)) = None.
Proof.
  intros H. unfold match_at, polygon_pattern. exec_seq. simpl lits.
  exec_seq. unfold lit at 1. rewrite exec_chr_cons. simpl Ascii.eqb.
  cbv iota. exec_seq. unfold lit at 1.
  rewrite exec_chr_cons, Ascii.eqb_sym, H. reflexivity.
Qed.

(** ** Scanning *)

Lemma findall_none (r : regex) (c : ascii) (s : string) :
  match_at r (String c s) = None ->
  findall_from r (String c s) 0 = findall_from r s 0.
Proof. intros H. cbn [findall_from]. rewrite H. reflexivity. Qed.

Lemma findall_skip (r : regex) (x rest : string) :
  findall_from r (x +:+ rest) (String.length x) = findall_from r rest 0.
Proof.
  induction x as [|c x IH]; [destruct rest; reflexivity|].
  rewrite string_app_cons. simpl String.length. cbn [findall_from].
  exact IH.
Qed.

Lemma findall_found (r : regex) (x rest : string) g :
  x <> EmptyString ->
  match_at r (x +:+ rest) = Some (rest, g) ->
  findall_from r (x +:+ rest) 0 = group1 g :: findall_from r rest 0.
Proof.
  intros Hne H. destruct x as [|c x]; [contradiction|].
  rewrite string_app_cons in *. cbn [findall_from]. rewrite H.
  f_equal.
  replace (String.length (String c (x +:+ rest)) - String.length rest - 1)
    with (String.length x)
    by (simpl; rewrite string_length_app; lia).
  apply findall_skip.
Qed.

Lemma quiet_weaken (u : string) :
  Spec2.quiet true u = true -> Spec2.quiet false u = true.
Proof.
  destruct u as [|c u]; simpl; [discriminate|].
  destruct (Ascii.eqb c "("); [discriminate | auto].
Qed.

(** Where no two opening parentheses follow each other there is no
    match. *)
Lemma findall_quiet (u rest : string) (b : bool) :
  Spec2.quiet b u = true ->
  findall_from polygon_pattern (u +:+ rest) 0
  = findall_from polygon_pattern rest 0.
Proof.
  revert b. induction u as [|c u IH]; intros b H; [reflexivity|].
  rewrite string_app_cons. simpl in H.
  destruct (Ascii.eqb c "(") eqn:Ec.
  - apply andb_prop in H as [_ H]. apply Ascii.eqb_eq in Ec as ->.
    rewrite findall_none; [exact (IH true H)|].
    destruct u as [|d u]; [discriminate H|]. simpl in H.
    rewrite string_app_cons.
    destruct (Ascii.eqb d "(") eqn:Ed; [discriminate H|].
    apply polygon_pattern_one_open, Ed.
  - rewrite findall_none; [exact (IH false H)|].
    apply polygon_pattern_not_open, Ec.
Qed.

Lemma quiet_app (u v : string) (b : bool) :
  Spec2.quiet b u = true -> Spec2.quiet false v = true ->
  Spec2.quiet b (u +:+ v) = true.
Proof.
  revert b. induction u as [|c u IH]; intros b Hu Hv.
  - destruct b; [discriminate Hu | exact Hv].
  - rewrite string_app_cons. simpl in *.
    destruct (Ascii.eqb c "(").
    + apply andb_prop in Hu as [Hb Hu]. rewrite Hb. simpl. apply IH; auto.
    + apply IH; auto.
Qed.

Lemma quiet_paren_free (s : string) :
  Spec2.paren_free s = true -> Spec2.quiet false s = true.
Proof.
  induction s as [|c s IH]; [reflexivity|]. intros H.
  apply paren_free_head in H as (H1 & _ & Hs). simpl.
  rewrite Ascii.eqb_sym, H1. apply IH, Hs.
Qed.

Lemma quiet_ring (ring : string) :
  Spec2.paren_free ring = true ->
  Spec2.quiet false (Spec2.ring_text ring) = true.
Proof.
  intros H. unfold Spec2.ring_text.
  change ("(" +:+ ring +:+ ")") with (String "(" (ring +:+ ")")).
  simpl. destruct ring as [|c ring]; [reflexivity|].
  apply paren_free_head in H as (H1 & _ & Hs).
  rewrite string_app_cons. simpl. rewrite Ascii.eqb_sym, H1.
  apply quiet_app; [apply quiet_paren_free, Hs | reflexivity].
Qed.

Lemma concat_cons2 (sep x y : string) (l : list string) :
  String.concat sep (x :: y :: l) = x +:+ sep +:+ String.concat sep (y :: l).
Proof. reflexivity. Qed.

Lemma quiet_rings (sep : string) (rings : list string) :
  Spec2.paren_free sep = true ->
  Forall (fun ring => ring <> EmptyString /\ Spec2.paren_free ring = true)
         rings ->
  Spec2.quiet false (String.concat sep (map Spec2.ring_text rings)) = true.
Proof.
  intros Hsep Hall. induction Hall as [|ring l [_ Hr] Hl IH]; [reflexivity|].
  destruct l as [|ring' l]; [apply quiet_ring, Hr|].
  simpl map in *. rewrite concat_cons2.
  apply quiet_app; [apply quiet_ring, Hr|].
  apply quiet_app; [apply quiet_paren_free, Hsep | exact IH].
Qed.

Lemma not_closing_sep (sep t : string) :
  Spec2.paren_free sep = true -> Spec2.not_closing t = true ->
  Spec2.not_closing (sep +:+ t) = true.
Proof.
  intros Hsep Ht. destruct sep as [|c sep]; [exact Ht|].
  apply paren_free_head in Hsep as (_ & H2 & _).
  rewrite string_app_cons. simpl. rewrite Ascii.eqb_sym, H2. reflexivity.
Qed.

Lemma findall_ring (ring rest : string) :
  ring <> EmptyString ->
  Spec2.paren_free ring = true ->
  findall_from polygon_pattern ("((" +:+ ring +:+ "))" +:+ rest) 0
  = ring :: findall_from polygon_pattern rest 0.
Proof.
  intros Hne Hr.
  assert (E : "((" +:+ ring +:+ "))" +:+ rest
              = ("((" +:+ ring +:+ "))") +:+ rest)
    by (rewrite !string_app_assoc; reflexivity).
  rewrite E. apply (findall_found _ _ _ (Some ring)); [discriminate|].
  rewrite <- E. apply polygon_pattern_ring; assumption.
Qed.

(** What one polygon adds to the groups found: its ring when it has one
    ring, nothing when it has holes. *)
Lemma findall_polygon (sep : string) (rings : list string) (rest : string) :
  Spec2.paren_free sep = true ->
  rings <> [] ->
  Forall (fun ring => ring <> EmptyString /\ Spec2.paren_free ring = true)
         rings ->
  findall_from polygon_pattern (Spec2.polygon_text sep rings +:+ rest) 0
  = match rings with
    | [ring] => [ring]
    | _ => []
    end ++ findall_from polygon_pattern rest 0.
Proof.
  intros Hsep Hne Hall. destruct rings as [|r1 [|r2 more]]; [contradiction| |].
  - apply Forall_inv in Hall as [Hr1 Hp1].
    unfold Spec2.polygon_text, Spec2.ring_text. simpl map. simpl String.concat.
    rewrite !string_app_assoc.
    apply (findall_ring r1 rest Hr1 Hp1).
  - assert (Hp1 : Spec2.paren_free r1 = true)
      by (apply Forall_inv in Hall as [_ H]; exact H).
    apply Forall_inv_tail in Hall.
    unfold Spec2.polygon_text. simpl map. rewrite concat_cons2.
    set (C := String.concat sep
                (Spec2.ring_text r2 :: map Spec2.ring_text more)).
    assert (HC : Spec2.quiet false C = true)
      by (apply (quiet_rings sep (r2 :: more)); assumption).
    assert (E : ("(" +:+ (Spec2.ring_text r1 +:+ sep +:+ C) +:+ ")") +:+ rest
                = String "(" (String "(" (r1 +:+ ")" +:+
                                          (sep +:+ C +:+ ")" +:+ rest)))).
    { unfold Spec2.ring_text. rewrite !string_app_assoc. reflexivity. }
    rewrite E. rewrite findall_none.
    2:{ apply (polygon_pattern_rings r1 _ Hp1).
        apply not_closing_sep; [exact Hsep|].
        unfold C. destruct more; reflexivity. }
    assert (E' : String "(" (r1 +:+ ")" +:+ (sep +:+ C +:+ ")" +:+ rest))
                 = (Spec2.ring_text r1 +:+ sep +:+ C +:+ ")") +:+ rest).
    { unfold Spec2.ring_text. rewrite !string_app_assoc. reflexivity. }
    rewrite E'. apply (findall_quiet _ _ false).
    apply quiet_app; [apply quiet_ring, Hp1|].
    apply quiet_app; [apply quiet_paren_free, Hsep|].
    apply quiet_app; [exact HC | reflexivity].
Qed.

Lemma hole_free_rings_cons (rings : list string)
    (polygons : list (list string)) :
  Spec2.hole_free_rings (rings :: polygons)
  = match rings with
    | [ring] => [ring]
    | _ => []
    end ++ Spec2.hole_free_rings polygons.
Proof. reflexivity. Qed.

Lemma findall_content (sep : string) (polygons : list (list string))
    (rest : string) :
  Spec2.well_written sep polygons ->
  findall_from polygon_pattern (Spec2.content_text sep polygons +:+ rest) 0
  = Spec2.hole_free_rings polygons ++ findall_from polygon_pattern rest 0.
Proof.
  intros [Hsep Hall].
  induction Hall as [|rings l [Hne Hr] Hl IH]; [reflexivity|].
  rewrite hole_free_rings_cons, <- app_assoc.
  destruct l as [|rings' l].
  - change (Spec2.content_text sep [rings])
      with (Spec2.polygon_text sep rings).
    rewrite (findall_polygon sep rings rest Hsep Hne Hr). reflexivity.
  - change (Spec2.content_text sep (rings :: rings' :: l))
      with (Spec2.polygon_text sep rings +:+ sep
            +:+ Spec2.content_text sep (rings' :: l)).
    rewrite !string_app_assoc.
    rewrite (findall_polygon sep rings _ Hsep Hne Hr).
    rewrite (findall_quiet sep _ false) by (apply quiet_paren_free, Hsep).
    rewrite IH. reflexivity.
Qed.


(** ** One ring per group *)

Lemma ring_separator_not_close (c : ascii) (s : string) :
  Ascii.eqb ")" c = false -> match_at ring_separator (String c s) = None.
Proof.
  intros H. unfold match_at, ring_separator. exec_seq. unfold lit at 1.
  rewrite exec_chr_cons, H. reflexivity.
Qed.

Lemma split_paren_free (ring cur : string) :
  Spec2.paren_free ring = true ->
  split_from ring_separator ring 0 cur = [cur +:+ ring].
Proof.
  revert cur. induction ring as [|c ring IH]; intros cur H.
  - rewrite string_app_nil_r. reflexivity.
  - apply paren_free_head in H as (_ & H2 & Hr).
    cbn [split_from]. rewrite (ring_separator_not_close c ring H2).
    rewrite (IH _ Hr), string_app_assoc. reflexivity.
Qed.

Lemma polygon_step_ring (polygons : list Polygon) (ring : string) :
  Spec2.paren_free ring = true ->
  polygon_step polygons ring
  = Ok (polygons ++ option_list (Spec2.ring_polygon ring)).
Proof.
  intros H. unfold polygon_step, re_split.
  rewrite (split_paren_free ring EmptyString H).
  change (EmptyString +:+ ring) with ring. cbn [for_each].
  rewrite ring_step_spec. unfold Spec2.ring_polygon. cbv zeta.
  destruct (3 <=? length _)%nat; simpl; rewrite ?app_nil_r; reflexivity.
Qed.

Lemma structured_rings (rings : list string) (polygons : list Polygon) :
  Forall (fun ring => Spec2.paren_free ring = true) rings ->
  for_each polygon_step rings polygons
  = Ok (polygons ++ omap Spec2.ring_polygon rings).
Proof.
  intros Hall. revert polygons.
  induction Hall as [|ring l Hr Hl IH]; intros polygons; simpl.
  - rewrite app_nil_r. reflexivity.
  - rewrite (polygon_step_ring _ _ Hr). simpl. rewrite IH, <- app_assoc.
    destruct (Spec2.ring_polygon ring); reflexivity.
Qed.

Lemma hole_free_rings_paren_free (sep : string)
    (polygons : list (list string)) :
  Spec2.well_written sep polygons ->
  Forall (fun ring => Spec2.paren_free ring = true)
         (Spec2.hole_free_rings polygons).
Proof.
  intros [_ Hall]. induction Hall as [|rings l [_ Hr] Hl IH]; [constructor|].
  rewrite hole_free_rings_cons. apply Forall_app. split; [|exact IH].
  destruct rings as [|r1 [|r2 more]]; constructor; [|constructor].
  apply Forall_inv in Hr as [_ H]. exact H.
Qed.

Lemma structured_standard (sep : string) (polygons : list (list string)) :
  Spec2.well_written sep polygons ->
  structured_polygons (Spec2.content_text sep polygons)
  = Ok (omap Spec2.ring_polygon (Spec2.hole_free_rings polygons)).
Proof.
  intros H. unfold structured_polygons, re_findall.
  rewrite <- (string_app_nil_r (Spec2.content_text sep polygons)).
  rewrite (findall_content sep polygons EmptyString H), app_nil_r.
  apply (structured_rings _ []).
  apply (hole_free_rings_paren_free sep), H.
Qed.

(** ** The whole text *)

Lemma rstrip_by_snoc (p : ascii -> bool) (a : string) (c : ascii) :
  p c = false ->
  Str.rstrip_by p (a +:+ String c EmptyString) = a +:+ String c EmptyString.
Proof.
  intros Hc. induction a as [|d a IH].
  - simpl. rewrite Hc. reflexivity.
  - rewrite string_app_cons. cbn [Str.rstrip_by]. rewrite IH.
    destruct a; reflexivity.
Qed.

Lemma content_text_head (sep : string) (polygons : list (list string)) :
  polygons <> [] ->
  exists s, Spec2.content_text sep polygons = String "(" s.
Proof.
  intros Hne. destruct polygons as [|p [|q l]]; [contradiction| |];
    eexists; reflexivity.
Qed.

Lemma strip_wkt_text (ws sep : string) (polygons : list (list string)) :
  Str.strip (Spec2.wkt_text ws sep polygons) = Spec2.wkt_text ws sep polygons.
Proof.
  unfold Str.strip, Str.strip_by, Spec2.wkt_text.
  change (Str.lstrip_by Str.isspace ("MULTIPOLYGON" +:+ ?t))
    with (Str.lstrip_by Str.isspace (String "M" ("ULTIPOLYGON" +:+ t))).
  rewrite lstrip_by_head by reflexivity.
  change (String "M" ("ULTIPOLYGON" +:+ ?t)) with ("MULTIPOLYGON" +:+ t).
  assert (E : "MULTIPOLYGON" +:+ ws +:+ "(" +:+
              Spec2.content_text sep polygons +:+ ")"
              = ("MULTIPOLYGON" +:+ ws +:+ "(" +:+
                 Spec2.content_text sep polygons) +:+ ")")
    by (rewrite !string_app_assoc; reflexivity).
  rewrite E. apply rstrip_by_snoc. reflexivity.
Qed.

Lemma prefix_app (p t : string) : String.prefix p (p +:+ t) = true.
Proof.
  induction p as [|c p IH]; [destruct t; reflexivity|].
  rewrite string_app_cons. simpl.
  destruct (ascii_dec c c); [exact IH | contradiction].
Qed.

Lemma accepted_wkt_text (ws sep : string) (polygons : list (list string)) :
  Spec2.all_chars Str.isspace ws = true ->
  polygons <> [] ->
  Spec.accepted (Spec2.wkt_text ws sep polygons)
                (Spec2.content_text sep polygons).
Proof.
  intros Hws Hne. unfold Spec.accepted. rewrite strip_wkt_text.
  split; [reflexivity|]. split; [apply prefix_app|].
  destruct (content_text_head sep polygons Hne) as [s E].
  unfold re_match, Spec2.wkt_text.
  rewrite outer_pattern_match_at; [reflexivity | exact Hws | |].
  - rewrite E. discriminate.
  - rewrite E. reflexivity.
Qed.


(** X17. In a multipolygon text in the standard writing the polygon
    pattern finds the polygons without hole, and only them: the groups
    found are the rings of the polygons that have one ring, in order. *)
Theorem groups_found_are_hole_free (sep : string)
    (polygons : list (list string)) :
  Spec2.well_written sep polygons ->
  re_findall polygon_pattern (Spec2.content_text sep polygons)
  = Spec2.hole_free_rings polygons.
Proof.
  intros H. unfold re_findall.
  rewrite <- (string_app_nil_r (Spec2.content_text sep polygons)).
  rewrite (findall_content sep polygons EmptyString H).
  apply app_nil_r.
Qed.

Lemma groups_found_are_hole_free_witness :
  re_findall polygon_pattern
    (Spec2.content_text ", "
       [["0 0,1 0,1 1"]; ["5 5,9 5,9 9"; "6 6,7 6,7 7"]; ["2 2,3 2,3 3"]])
  = Spec2.hole_free_rings
      [["0 0,1 0,1 1"]; ["5 5,9 5,9 9"; "6 6,7 6,7 7"]; ["2 2,3 2,3 3"]].
Proof.
  apply groups_found_are_hole_free. split; [reflexivity|].
  repeat constructor; discriminate.
Defined.

(** X18. The outer pattern captures all that stands between the first
    opening parenthesis and the last character, a closing parenthesis:
    the keyword, whitespace, a parenthesis, a text that does not begin
    with whitespace, and a parenthesis give that text. *)
Theorem outer_pattern_captures (ws content : string) :
  Spec2.all_chars Str.isspace ws = true ->
  content <> EmptyString ->
  match content with String c _ => Str.isspace c | EmptyString => false end
  = false ->
  re_match outer_pattern ("MULTIPOLYGON" +:+ ws +:+ "(" +:+ content +:+ ")")
  = Some content.
Proof.
  intros Hws Hne Hc. unfold re_match.
  rewrite outer_pattern_match_at by assumption. reflexivity.
Qed.

Lemma outer_pattern_captures_witness :
  re_match outer_pattern
    ("MULTIPOLYGON" +:+ " " +:+ "(" +:+ "((0 0,1 0,1 1))" +:+ ")")
  = Some "((0 0,1 0,1 1))".
Proof.
  apply outer_pattern_captures; [reflexivity | discriminate | reflexivity].
Defined.

(** X19. A multipolygon text in the standard writing is read as the
    polygons without hole whose ring is retained, in order, one ring
    each: a polygon with holes is left out whenever another polygon is
    retained.  When no polygon is retained in this way the result is that
    of the single-polygon path on the whole text. *)
Theorem standard_text_parsed (ws sep : string)
    (polygons : list (list string)) :
  Spec2.all_chars Str.isspace ws = true ->
  Spec2.well_written sep polygons ->
  polygons <> [] ->
  parse_wkt_multipolygon (PyStr (Spec2.wkt_text ws sep polygons))
  = Ok match omap Spec2.ring_polygon (Spec2.hole_free_rings polygons) with
       | [] => Spec.fallback_outcome (Spec2.wkt_text ws sep polygons)
       | found => Some found
       end.
Proof.
  intros Hws Hw Hne.
  assert (Ha := accepted_wkt_text ws sep polygons Hws Hne).
  assert (Hs := structured_standard sep polygons Hw).
  destruct (omap Spec2.ring_polygon (Spec2.hole_free_rings polygons))
    as [|p found] eqn:E.
  - rewrite (parse_fallback _ _ Ha Hs), strip_wkt_text. reflexivity.
  - rewrite (parse_accepted _ _ Ha). unfold retained_polygons.
    rewrite Hs. reflexivity.
Qed.

Lemma standard_text_parsed_witness :
  parse_wkt_multipolygon
    (PyStr (Spec2.wkt_text " " ", "
              [["0 0,1 0,1 1"]; ["5 5,9 5,9 9"; "6 6,7 6,7 7"]]))
  = Ok match omap Spec2.ring_polygon
               (Spec2.hole_free_rings
                  [["0 0,1 0,1 1"]; ["5 5,9 5,9 9"; "6 6,7 6,7 7"]]) with
       | [] => Spec.fallback_outcome
                 (Spec2.wkt_text " " ", "
                    [["0 0,1 0,1 1"]; ["5 5,9 5,9 9"; "6 6,7 6,7 7"]])
       | found => Some found
       end.
Proof.
  apply standard_text_parsed; [reflexivity | | discriminate].
  split; [reflexivity|]. repeat constructor; discriminate.
Defined.

(** ** Whitespace and parentheses around a ring *)

Lemma all_chars_lstrip (q p : ascii -> bool) (s : string) :
  Spec2.all_chars q s = true -> Spec2.all_chars q (Str.lstrip_by p s) = true.
Proof.
  induction s as [|c s IH]; [reflexivity|]. intros H. simpl.
  destruct (p c); [|exact H].
  simpl in H. apply andb_prop in H as [_ H]. apply IH, H.
Qed.

Lemma all_chars_rstrip (q p : ascii -> bool) (s : string) :
  Spec2.all_chars q s = true -> Spec2.all_chars q (Str.rstrip_by p s) = true.
Proof.
  induction s as [|c s IH]; [reflexivity|]. intros H. simpl.
  simpl in H. apply andb_prop in H as [Hc H].
  destruct (Str.is_empty _ && p c); [reflexivity|].
  simpl. rewrite Hc. apply IH, H.
Qed.

Lemma strip_by_none (p : ascii -> bool) (s : string) :
  Spec2.all_chars (fun c => negb (p c)) s = true -> Str.strip_by p s = s.
Proof.
  intros H. unfold Str.strip_by.
  assert (El : Str.lstrip_by p s = s).
  { destruct s as [|c s]; [reflexivity|]. simpl in H.
    apply andb_prop in H as [Hc _]. apply negb_true_iff in Hc.
    apply lstrip_by_head, Hc. }
  rewrite El. induction s as [|c s IH]; [reflexivity|].
  simpl in H. apply andb_prop in H as [Hc H]. apply negb_true_iff in Hc.
  rewrite (rstrip_by_head p c s Hc). f_equal. apply IH; [exact H|].
  destruct s as [|d s]; [reflexivity|]. simpl in H.
  apply andb_prop in H as [Hd _]. apply negb_true_iff in Hd.
  apply lstrip_by_head, Hd.
Qed.

Lemma strip_parens_paren_free (s : string) :
  Spec2.paren_free s = true -> Str.strip_chars "()" s = s.
Proof.
  intros H. apply strip_by_none.
  unfold Spec2.paren_free in H.
  induction s as [|c s IH]; [reflexivity|]. simpl in *.
  apply andb_prop in H as [Hc H]. rewrite (IH H), andb_true_r.
  rewrite orb_false_r. exact Hc.
Qed.

Lemma split_char_nonempty (sep : ascii) (s : string) :
  Str.split_char sep s <> [].
Proof.
  destruct s as [|c s]; simpl; [discriminate|].
  destruct (Ascii.eqb c sep); [discriminate|].
  destruct (Str.split_char sep s); discriminate.
Qed.

Lemma isspace_not_comma (c : ascii) :
  Str.isspace c = true -> Ascii.eqb c "," = false.
Proof.
  intros H. destruct (Ascii.eqb c ",") eqn:E; [|reflexivity].
  apply Ascii.eqb_eq in E as ->. discriminate H.
Qed.

(** Stripping a ring string changes its pairs only by whitespace at the
    ends, which the tokens of a pair do not see. *)
Lemma split_char_lstrip (s : string) :
  Forall2 (fun a b => Str.split_ws a = Str.split_ws b)
          (Str.split_char "," (Str.lstrip_by Str.isspace s))
          (Str.split_char "," s).
Proof.
  induction s as [|c s IH]; [repeat constructor|].
  cbn [Str.lstrip_by]. destruct (Str.isspace c) eqn:Ec.
  - cbn [Str.split_char]. rewrite (isspace_not_comma c Ec).
    destruct (Str.split_char "," s) as [|h t] eqn:E;
      [destruct (split_char_nonempty _ _ E)|].
    inversion IH as [|h' h0 t' t0 Hh Ht]; subst.
    constructor; [|exact Ht].
    rewrite Hh. unfold Str.split_ws. simpl. rewrite Ec. reflexivity.
  - apply Forall2_same_length_lookup_2; [reflexivity|].
    intros i x y Hx Hy. congruence.
Qed.

Lemma split_char_rstrip (s : string) :
  Forall2 (fun a b => forall tok,
             Str.split_ws_from a tok = Str.split_ws_from b tok)
          (Str.split_char "," (Str.rstrip_by Str.isspace s))
          (Str.split_char "," s).
Proof.
  induction s as [|c s IH]; [repeat constructor|].
  cbn [Str.rstrip_by]. cbv zeta.
  destruct (Str.is_empty (Str.rstrip_by Str.isspace s) && Str.isspace c)
    eqn:E.
  - apply andb_prop in E as [Er Ec].
    destruct (Str.rstrip_by Str.isspace s); [|discriminate Er].
    cbn [Str.split_char] in *. rewrite (isspace_not_comma c Ec).
    destruct (Str.split_char "," s) as [|h t] eqn:Es;
      [destruct (split_char_nonempty _ _ Es)|].
    inversion IH as [|h' h0 t' t0 Hh Ht]; subst.
    inversion Ht; subst. repeat constructor. intros tok.
    simpl. rewrite Ec, <- (Hh EmptyString). reflexivity.
  - cbn [Str.split_char]. destruct (Ascii.eqb c ",").
    + constructor; [reflexivity | exact IH].
    + destruct (Str.split_char "," s) as [|h t] eqn:Es;
        [destruct (split_char_nonempty _ _ Es)|].
      inversion IH as [|h' h0 t' t0 Hh Ht]; subst.
      constructor; [|exact Ht]. intros tok. simpl.
      rewrite !Hh. reflexivity.
Qed.

Lemma omap_candidate_ext (xs ys : list string) :
  Forall2 (fun a b => Str.split_ws a = Str.split_ws b) xs ys ->
  omap Spec.candidate xs = omap Spec.candidate ys.
Proof.
  induction 1 as [|a b xs ys Hab _ IH]; [reflexivity|].
  assert (Hc : Spec.candidate a = Spec.candidate b)
    by (unfold Spec.candidate; rewrite Hab; reflexivity).
  change (omap Spec.candidate (a :: xs))
    with (match Spec.candidate a with
          | Some y => y :: omap Spec.candidate xs
          | None => omap Spec.candidate xs
          end).
  rewrite Hc, IH. reflexivity.
Qed.

Lemma coordinates_strip (s : string) :
  Spec.coordinates (Str.strip s) = Spec.coordinates s.
Proof.
  unfold Spec.coordinates, Str.strip, Str.strip_by.
  rewrite <- (omap_candidate_ext _ _ (split_char_lstrip s)).
  apply omap_candidate_ext.
  eapply Forall2_impl; [apply split_char_rstrip|].
  intros a b H. apply H.
Qed.

(** The polygon read from a ring without parentheses. *)
Lemma ring_polygon_paren_free (ring : string) :
  Spec2.paren_free ring = true ->
  Spec2.ring_polygon ring
  = if (3 <=? length (Spec.coordinates ring))%nat
    then Some [Spec.coordinates ring] else None.
Proof.
  intros H. unfold Spec2.ring_polygon.
  rewrite strip_parens_paren_free, coordinates_strip; [reflexivity|].
  unfold Str.strip, Str.strip_by.
  apply all_chars_rstrip, all_chars_lstrip, H.
Qed.

(** X20. Whitespace around a ring string never changes the coordinates
    read from it. *)
Theorem coordinates_ignore_outer_whitespace (ring_str : string) :
  parse_coords (Str.strip ring_str) = parse_coords ring_str.
Proof. rewrite !parse_coords_spec, coordinates_strip. reflexivity. Qed.

Lemma hole_free_singletons (rings : list string) :
  Spec2.hole_free_rings (map (fun ring => [ring]) rings) = rings.
Proof.
  induction rings as [|ring l IH]; [reflexivity|].
  simpl map. rewrite hole_free_rings_cons, IH. reflexivity.
Qed.

Lemma ring_polygons_retained (rings : list string) :
  Forall (fun ring =>
            ring <> EmptyString
            /\ Spec2.paren_free ring = true
            /\ 3 <= length (Spec.coordinates ring)) rings ->
  omap Spec2.ring_polygon rings
  = map (fun ring => [Spec.coordinates ring]) rings.
Proof.
  induction 1 as [|ring l (_ & Hp & H3) _ IH]; [reflexivity|].
  change (omap Spec2.ring_polygon (ring :: l))
    with (match Spec2.ring_polygon ring with
          | Some y => y :: omap Spec2.ring_polygon l
          | None => omap Spec2.ring_polygon l
          end).
  rewrite (ring_polygon_paren_free ring Hp), IH.
  apply Nat.leb_le in H3. rewrite H3. reflexivity.
Qed.

(** X21. A multipolygon text without holes in the standard writing, whose
    rings have at least 3 coordinates each, is read back whole: one polygon
    for each ring, in order, made of the coordinates of that ring. *)
Theorem hole_free_text_read_back (ws sep : string) (rings : list string) :
  Spec2.all_chars Str.isspace ws = true ->
  Spec2.paren_free sep = true ->
  rings <> [] ->
  Forall (fun ring =>
            ring <> EmptyString
            /\ Spec2.paren_free ring = true
            /\ 3 <= length (Spec.coordinates ring)) rings ->
  parse_wkt_multipolygon
    (PyStr (Spec2.wkt_text ws sep (map (fun ring => [ring]) rings)))
  = Ok (Some (map (fun ring => [Spec.coordinates ring]) rings)).
Proof.
  intros Hws Hsep Hne Hall.
  assert (Hw : Spec2.well_written sep (map (fun ring => [ring]) rings)).
  { split; [exact Hsep|]. apply Forall_fmap.
    eapply Forall_impl; [exact Hall|]. simpl.
    intros ring (Hr & Hp & _). split; [discriminate|].
    constructor; [auto | constructor]. }
  assert (Ha : Spec.accepted
                 (Spec2.wkt_text ws sep (map (fun ring => [ring]) rings))
                 (Spec2.content_text sep (map (fun ring => [ring]) rings))).
  { apply accepted_wkt_text; [exact Hws|].
    destruct rings; [contradiction | discriminate]. }
  rewrite (parse_accepted _ _ Ha). unfold retained_polygons.
  rewrite (structured_standard _ _ Hw), hole_free_singletons.
  rewrite (ring_polygons_retained rings Hall).
  destruct rings; [contradiction | reflexivity].
Qed.

Lemma hole_free_text_read_back_witness :
  parse_wkt_multipolygon
    (PyStr (Spec2.wkt_text " " ", "
              (map (fun ring => [ring]) ["0 0,1 0,1 1"; "5 5, 6 5, 6 6"])))
  = Ok (Some (map (fun ring => [Spec.coordinates ring])
                  ["0 0,1 0,1 1"; "5 5, 6 5, 6 6"])).
Proof.
  apply hole_free_text_read_back;
    [reflexivity | reflexivity | discriminate |].
  repeat constructor; try discriminate; vm_compute; lia.
Defined.

(** * [get_nta_index] *)

(** X22. Whatever the borough, known or not, the default index is 0: the
    first neighbourhood of the list is always proposed. *)
Theorem get_nta_index_constant (borough : string) :
  get_nta_index borough = 0%Z.
Proof.
  unfold get_nta_index. destruct (defaults !! borough) as [v|] eqn:E;
    [|reflexivity].
  apply elem_of_list_to_map_2 in E. simpl.
  repeat (apply elem_of_cons in E as [[= _ <-] | E]; [reflexivity|]).
  inversion E.
Qed.
